(** * Commercial-paper chaincode helper (src/utils/chaincode_ops.js)

    A shallow embedding of the [CPChaincode] helper: its constructor, its six
    operations and the two private helpers [invoke] and [query], together
    with the part of JavaScript they rely on (truthiness, [toString],
    property reads, [JSON.stringify]) and a small model of the SDK objects
    they talk to (the chain, its members, the transaction emitters).

    The module is callback driven.  Every [function] expression of the source
    is a constructor of a closure type that captures its free variables, and
    an [apply]-style function gives its body.  The SDK and the caller are the
    environment: they hold the closures and decide when to run them. *)

From Stdlib Require Import ZArith String Ascii List Bool Lia.
From Stdlib Require Import DecimalString DecimalPos DecimalZ Eqdep_dec.
From Stdlib.Strings Require Import Byte.
Import ListNotations.
Open Scope string_scope.

Set Warnings "-register-all".

(** ** JavaScript values *)

(** The numbers of the model are the safe integers, those of magnitude at
    most 2^53 - 1: every one of them is a JavaScript number, and prints as
    its decimal digits. *)
Definition safe (z : Z) : bool := (Z.abs z <=? 9007199254740991)%Z.

Record number : Type := Number {
  integer : Z;
  integer_safe : safe integer = true
}.

Abbreviation lit z := (Number z eq_refl) (only parsing).

(** The data values that travel through the module.  Numbers are the safe
    integers and NaN; a string stands for its UTF-8 bytes; [VObject] lists
    the own enumerable properties of a plain object in enumeration order.
    Functions and SDK objects are not data: they have their own types
    below. *)
Inductive value : Type :=
| VUndefined
| VNull
| VBool (b : bool)
| VNum (n : number)
| VNaN
| VStr (s : string)
| VBuffer (bytes : list byte)
| VError (message : string)
| VArray (elems : list value)
| VObject (props : list (string * value)).

(** [if (v)], [!v], [a && b]: what JavaScript takes for true. *)
Definition truthy (v : value) : bool :=
  match v with
  | VUndefined | VNull | VNaN => false
  | VBool b => b
  | VNum n => negb (integer n =? 0)%Z
  | VStr EmptyString => false
  | _ => true
  end.

Definition is_string (v : value) : bool :=
  match v with VStr _ => true | _ => false end.

Fixpoint lookup (name : string) (props : list (string * value)) : value :=
  match props with
  | [] => VUndefined
  | (k, v) :: rest => if String.eqb k name then v else lookup name rest
  end.

(** [v.name] for the two names the module reads, [result] and [message].
    [None] is the TypeError of a property read on undefined or null. *)
Definition get (v : value) (name : string) : option value :=
  match v with
  | VUndefined | VNull => None
  | VObject props => Some (lookup name props)
  | VError m => Some (if String.eqb name "message" then VStr m else VUndefined)
  | _ => Some VUndefined
  end.

Fixpoint has_key (name : string) (props : list (string * value)) : bool :=
  match props with
  | [] => false
  | (k, _) :: rest => String.eqb k name || has_key name rest
  end.

(** The decimal digits of an integer; it is only ever applied to a safe one. *)
Definition decimal (n : Z) : string := NilZero.string_of_int (Z.to_int n).

Definition join (sep : string) (parts : list string) : string :=
  String.concat sep parts.

(** *** Buffer.prototype.toString

    The bytes are decoded as UTF-8, and every maximal part of an ill-formed
    sequence becomes U+FFFD.  As a string stands for its UTF-8 bytes, a
    well-formed sequence is copied and an ill-formed part is replaced by
    the three bytes of U+FFFD. *)

Definition replacement : list byte := [xef; xbf; xbd].

(** For a lead byte: how many continuation bytes follow, and the range the
    first of them must lie in. *)
Definition lead (n : N) : option (nat * N * N) :=
  if ((194 <=? n) && (n <=? 223))%N then Some (1, 128%N, 191%N)
  else if (n =? 224)%N then Some (2, 160%N, 191%N)
  else if (n =? 237)%N then Some (2, 128%N, 159%N)
  else if ((225 <=? n) && (n <=? 239))%N then Some (2, 128%N, 191%N)
  else if (n =? 240)%N then Some (3, 144%N, 191%N)
  else if (n =? 244)%N then Some (3, 128%N, 143%N)
  else if ((241 <=? n) && (n <=? 243))%N then Some (3, 128%N, 191%N)
  else None.

(** [pending] holds the bytes read of the sequence that is open, [needed]
    counts the continuation bytes it still lacks, and the next one must lie
    between [lower] and [upper]. *)
Fixpoint utf8_decode (bytes pending : list byte) (needed : nat) (lower upper : N)
  : list byte :=
  match bytes with
  | [] => match needed with O => [] | S _ => replacement end
  | b :: rest =>
      let n := Byte.to_N b in
      let fresh :=
        if (n <? 128)%N then b :: utf8_decode rest [] 0 128%N 191%N
        else
          match lead n with
          | Some (k, lo, hi) => utf8_decode rest [b] k lo hi
          | None => (replacement ++ utf8_decode rest [] 0 128%N 191%N)%list
          end in
      match needed with
      | O => fresh
      | S k =>
          if ((lower <=? n) && (n <=? upper))%N then
            match k with
            | O => (pending ++ b :: utf8_decode rest [] 0 128%N 191%N)%list
            | S _ => utf8_decode rest (pending ++ [b])%list k 128%N 191%N
            end
          else (replacement ++ fresh)%list
      end
  end.

Definition Buffer_toString (bytes : list byte) : string :=
  string_of_list_byte (utf8_decode bytes [] 0 128%N 191%N).

(** [v.toString()].  [None] is a TypeError: the receiver is undefined or
    null, or it is an object whose [toString] property is data, which cannot
    be called.  Array elements that are undefined or null print as the empty
    string, as [Array.prototype.join] has it. *)
Fixpoint toString (v : value) : option string :=
  match v with
  | VUndefined | VNull => None
  | VBool true => Some "true"
  | VBool false => Some "false"
  | VNum n => Some (decimal (integer n))
  | VNaN => Some "NaN"
  | VStr s => Some s
  | VBuffer bytes => Some (Buffer_toString bytes)
  | VError EmptyString => Some "Error"
  | VError m => Some ("Error: " ++ m)
  | VArray elems =>
      let fix each (l : list value) : option (list string) :=
        match l with
        | [] => Some []
        | x :: rest =>
            let here :=
              match x with
              | VUndefined | VNull => Some EmptyString
              | _ => toString x
              end in
            match here, each rest with
            | Some s, Some ss => Some (s :: ss)
            | _, _ => None
            end
        end in
      option_map (join ",") (each elems)
  | VObject props =>
      if has_key "toString" props then None else Some "[object Object]"
  end.

(** ['text' + v]: the string a value is coerced to in a concatenation. *)
Definition coerce (v : value) : option string :=
  match v with
  | VUndefined => Some "undefined"
  | VNull => Some "null"
  | _ => toString v
  end.

(** *** JSON.stringify *)

Definition dquote : ascii := ascii_of_nat 34.
Definition backslash : ascii := ascii_of_nat 92.

Definition hex_digit (n : nat) : ascii :=
  if Nat.ltb n 10 then ascii_of_nat (48 + n) else ascii_of_nat (87 + n).

Definition escape_char (c : ascii) : string :=
  let n := nat_of_ascii c in
  if Nat.eqb n 34 then String backslash (String dquote EmptyString)
  else if Nat.eqb n 92 then String backslash (String backslash EmptyString)
  else if Nat.eqb n 8 then String backslash "b"
  else if Nat.eqb n 12 then String backslash "f"
  else if Nat.eqb n 10 then String backslash "n"
  else if Nat.eqb n 13 then String backslash "r"
  else if Nat.eqb n 9 then String backslash "t"
  else if Nat.ltb n 32 then
    String backslash
      ("u00" ++ String (hex_digit (n / 16)) (String (hex_digit (n mod 16)) EmptyString))
  else String c EmptyString.

Fixpoint escape (s : string) : string :=
  match s with
  | EmptyString => EmptyString
  | String c rest => escape_char c ++ escape rest
  end.

Definition quote (s : string) : string :=
  String dquote (escape s ++ String dquote EmptyString).

Definition byte_decimal (b : byte) : string :=
  decimal (Z.of_N (Byte.to_N b)).

(** The text [JSON.stringify] produces, [None] where it produces undefined.
    A Buffer serializes through its [toJSON]; an Error has no enumerable
    property; NaN becomes null; an undefined array element becomes null and
    an undefined property is left out. *)
Fixpoint json (v : value) : option string :=
  match v with
  | VUndefined => None
  | VNull => Some "null"
  | VBool true => Some "true"
  | VBool false => Some "false"
  | VNum n => Some (decimal (integer n))
  | VNaN => Some "null"
  | VStr s => Some (quote s)
  | VBuffer bytes =>
      Some ("{" ++ quote "type" ++ ":" ++ quote "Buffer" ++ "," ++ quote "data"
            ++ ":[" ++ join "," (map byte_decimal bytes) ++ "]}")
  | VError _ => Some "{}"
  | VArray elems =>
      let element x := match json x with Some s => s | None => "null" end in
      Some ("[" ++ join "," (map element elems) ++ "]")
  | VObject props =>
      let fix members (l : list (string * value)) : list string :=
        match l with
        | [] => []
        | (k, x) :: rest =>
            match json x with
            | Some s => (quote k ++ ":" ++ s) :: members rest
            | None => members rest
            end
        end in
      Some ("{" ++ join "," (members props) ++ "}")
  end.

(** [JSON.stringify(v)] as a value: a string or undefined. *)
Definition JSON_stringify (v : value) : value :=
  match json v with
  | Some s => VStr s
  | None => VUndefined
  end.

(** *** Reading JSON back

    A reader for the compact JSON text that [JSON.stringify] writes, used to
    say what a text stands for.  What JSON keeps of a value is [plain]: a
    property that is undefined is gone, an undefined array element and NaN
    are null, a Buffer is the object its [toJSON] returns and an Error is
    the empty object. *)














(** The pieces [json] and [plain] are made of, and the fuel [parse] needs. *)
Definition element (x : value) : string :=
  match json x with Some s => s | None => "null" end.









(** ** Effects *)

Open Scope list_scope.

Inductive exn : Type :=
| TypeError
| Error (message : string).

Inductive outcome (A : Type) : Type :=
| Ret (a : A)
| Throw (e : exn).
Arguments Ret {A} a.
Arguments Throw {A} e.

(** What the module does to the outside, in the order it does it. *)
Inductive action : Type :=
| ConsoleLog (args : list value)
| ConsoleError (args : list value)
| GetMember (c : nat) (enrollID : value)
| Invoke (m : nat) (requestBody : value)
| Query (m : nat) (requestBody : value)
| Call (k : nat) (args : list value)
| RunTask (t : nat) (callback : nat)
| Thrown (e : exn).

(** *** Closures

    One constructor per [function] expression of the source, holding the
    variables the function closes over. *)

(** Functions of the form [function (err, result)].  [Caller k] is a function
    of the caller's; [CallbackValue v] is a data value passed where a
    callback is expected. *)
Inductive callback : Type :=
| Caller (k : nat)
| CallbackValue (v : value)
| createCompany_cb (cb : callback)
| getCompany_cb (cb : callback)
| createPaper_cb (cb : callback)
| ping_cb (cb : callback)
| transferPaper_cb (cb : callback)
| getPapers_cb (cb : callback).

(** The two functions handed to [chain.getMember]. *)
Inductive member_cb : Type :=
| invoke_getMember_cb (enrollID requestBody : value) (cb : callback)
| query_getMember_cb (enrollID requestBody : value) (cb : callback).

(** The five functions registered on a transaction emitter. *)
Inductive listener : Type :=
| invoke_completed (cb : callback)
| invoke_submitted (cb : callback)
| invoke_error (cb : callback)
| query_complete (cb : callback)
| query_error (cb : callback).

(** The worker given to [async.queue] by the constructor. *)
Inductive worker_fn : Type :=
| queue_worker.

(** SDK objects, or data values passed in their place. *)
Inductive chain_arg : Type :=
| Chain (c : nat)
| ChainValue (v : value).

Inductive member_arg : Type :=
| Member (m : nat)
| MemberValue (v : value).

Inductive task : Type :=
| Task (t : nat)
| TaskValue (v : value).

Definition truthy_chain (chain : chain_arg) : bool :=
  match chain with
  | Chain _ => true
  | ChainValue v => truthy v
  end.

Definition truthy_callback (cb : callback) : bool :=
  match cb with
  | CallbackValue v => truthy v
  | _ => true
  end.

(** *** The world

    The trace of actions, the callbacks the chain has been handed by
    [getMember] (oldest first), and for each emitter created so far the
    listeners registered on it, in registration order. *)
Record world : Type := World {
  trace : list action;
  members : list member_cb;
  emitters : list (list (string * listener))
}.

Definition empty : world := World [] [] [].

Definition M (A : Type) : Type := world -> world * outcome A.

Definition ret {A} (a : A) : M A := fun w => (w, Ret a).

Definition bind {A B} (m : M A) (f : A -> M B) : M B :=
  fun w =>
    match m w with
    | (w', Ret a) => f a w'
    | (w', Throw e) => (w', Throw e)
    end.

Definition throw {A} (e : exn) : M A := fun w => (w, Throw e).

Declare Scope js_scope.
Delimit Scope js_scope with js.
Notation "x <- m ;; k" := (bind m (fun x => k))
  (at level 61, m at next level, right associativity) : js_scope.
Notation "m ;; k" := (bind m (fun _ => k))
  (at level 61, right associativity) : js_scope.
Open Scope js_scope.

Definition act (a : action) : M unit :=
  fun w => (World (trace w ++ [a]) (members w) (emitters w), Ret tt).

(** An expression that yields a value or throws a TypeError. *)
Definition eval {A} (o : option A) : M A :=
  match o with
  | Some a => ret a
  | None => throw TypeError
  end.

Definition console_log (args : list value) : M unit := act (ConsoleLog args).
Definition console_error (args : list value) : M unit := act (ConsoleError args).

(** [chain.getMember(enrollID, k)]: the chain keeps [k] and answers later. *)
Definition chain_getMember (chain : chain_arg) (enrollID : value) (k : member_cb)
  : M unit :=
  match chain with
  | Chain c =>
      fun w => (World (trace w ++ [GetMember c enrollID]) (members w ++ [k])
                  (emitters w), Ret tt)
  | ChainValue _ => throw TypeError
  end.

(** [usr.invoke(requestBody)] and [usr.query(requestBody)]: the member
    returns a fresh emitter, named by its position among the emitters. *)
Definition new_emitter (a : action) : M nat :=
  fun w => (World (trace w ++ [a]) (members w) (emitters w ++ [[]]),
            Ret (length (emitters w))).

Definition usr_invoke (usr : member_arg) (requestBody : value) : M nat :=
  match usr with
  | Member m => new_emitter (Invoke m requestBody)
  | MemberValue _ => throw TypeError
  end.

Definition usr_query (usr : member_arg) (requestBody : value) : M nat :=
  match usr with
  | Member m => new_emitter (Query m requestBody)
  | MemberValue _ => throw TypeError
  end.

Fixpoint register (e : nat) (entry : string * listener)
  (es : list (list (string * listener))) : list (list (string * listener)) :=
  match es, e with
  | [], _ => []
  | ls :: rest, O => (ls ++ [entry]) :: rest
  | ls :: rest, S e' => ls :: register e' entry rest
  end.

(** [tx.on(event, l)] *)
Definition tx_on (e : nat) (event : string) (l : listener) : M unit :=
  fun w => (World (trace w) (members w) (register e (event, l) (emitters w)),
            Ret tt).

(** The i-th argument of a call, undefined when the call has fewer. *)
Definition arg (i : nat) (args : list value) : value := nth i args VUndefined.

(** ** The module *)

Definition TAG : value := VStr "chaincode_ops:".

(** [cb(args)] for every kind of callback.  A function of the caller's is
    recorded and taken to return; a data value cannot be called.  The
    bodies of the six functions the operations hand to [invoke] and [query]
    follow: on a truthy [err] they log and pass it on, otherwise they log
    and pass the result; the two query operations pass [result.toString()],
    the invoke operations pass [result] and use [toString] for the log line
    only. *)
Fixpoint call (cb : callback) (args : list value) : M unit :=
  let err := arg 0 args in
  let result := arg 1 args in
  match cb with
  | Caller k => act (Call k args)
  | CallbackValue _ => throw TypeError
  | createCompany_cb cb =>
      if truthy err then
        console_error [TAG; VStr "failed to create company:"; err] ;;
        call cb [err]
      else
        s <- eval (toString result) ;;
        console_log [TAG; VStr "Created company successfully:"; VStr s] ;;
        call cb [VNull; result]
  | getCompany_cb cb =>
      if truthy err then
        console_error [TAG; VStr "failed to get company:"; err] ;;
        call cb [err]
      else
        s <- eval (toString result) ;;
        console_log [TAG; VStr "retrieved company information:"; VStr s] ;;
        s' <- eval (toString result) ;;
        call cb [VNull; VStr s']
  | createPaper_cb cb =>
      if truthy err then
        console_error [TAG; VStr "failed to create paper:"; err] ;;
        call cb [err]
      else
        s <- eval (toString result) ;;
        console_log [TAG; VStr "Created paper successfully:"; VStr s] ;;
        call cb [VNull; result]
  | ping_cb cb =>
      if truthy err then
        console_error [TAG; VStr "failed to ping:"; err] ;;
        call cb [err]
      else
        s <- eval (toString result) ;;
        console_log [TAG; VStr "ping successfully:"; VStr s] ;;
        call cb [VNull; result]
  | transferPaper_cb cb =>
      if truthy err then
        console_error [TAG; VStr "failed to transfer paper:"; err] ;;
        call cb [err]
      else
        s <- eval (toString result) ;;
        console_log [TAG; VStr "Transferred paper successfully:"; VStr s] ;;
        call cb [VNull; result]
  | getPapers_cb cb =>
      if truthy err then
        console_error [TAG; VStr "failed to getPapers:"; err] ;;
        call cb [err]
      else
        console_log [TAG; VStr "got papers"] ;;
        s <- eval (toString result) ;;
        call cb [VNull; VStr s]
  end.

(** [function invoke(chain, enrollID, requestBody, cb)] *)
Definition invoke (chain : chain_arg) (enrollID requestBody : value)
  (cb : callback) : M unit :=
  console_log [TAG; VStr "Invoke transaction as:"; enrollID] ;;
  chain_getMember chain enrollID (invoke_getMember_cb enrollID requestBody cb).

(** [function query(chain, enrollID, requestBody, cb)] *)
Definition query (chain : chain_arg) (enrollID requestBody : value)
  (cb : callback) : M unit :=
  console_log [TAG; VStr "querying chaincode as:"; enrollID] ;;
  chain_getMember chain enrollID (query_getMember_cb enrollID requestBody cb).

(** The line both helpers log when the member cannot be had. *)
Definition failed_to_get (enrollID getMemberError : value) : M unit :=
  s <- eval (coerce enrollID) ;;
  message <- eval (get getMemberError "message") ;;
  console_error [TAG; VStr ("failed to get " ++ s ++ " member:")%string; message].

(** [function (getMemberError, usr)], as [invoke] and [query] write it. *)
Definition apply_member_cb (k : member_cb) (getMemberError : value)
  (usr : member_arg) : M unit :=
  match k with
  | invoke_getMember_cb enrollID requestBody cb =>
      if truthy getMemberError then
        failed_to_get enrollID getMemberError ;;
        (if truthy_callback cb then call cb [getMemberError] else ret tt)
      else
        console_log [TAG; VStr "successfully got member:"; enrollID] ;;
        console_log [TAG; VStr "invoke body:"; JSON_stringify requestBody] ;;
        invokeTx <- usr_invoke usr requestBody ;;
        tx_on invokeTx "completed" (invoke_completed cb) ;;
        tx_on invokeTx "submitted" (invoke_submitted cb) ;;
        tx_on invokeTx "error" (invoke_error cb)
  | query_getMember_cb enrollID requestBody cb =>
      if truthy getMemberError then
        failed_to_get enrollID getMemberError ;;
        (if truthy_callback cb then call cb [getMemberError] else ret tt)
      else
        console_log [TAG; VStr "successfully got member:"; enrollID] ;;
        console_log [TAG; VStr "query body:"; JSON_stringify requestBody] ;;
        queryTx <- usr_query usr requestBody ;;
        tx_on queryTx "complete" (query_complete cb) ;;
        tx_on queryTx "error" (query_error cb)
  end.

(** The bodies of the event listeners. *)
Definition apply_listener (l : listener) (payload : value) : M unit :=
  match l with
  | invoke_completed cb =>
      console_log [TAG; VStr "Successfully completed invoke. Results:"; payload] ;;
      call cb [VNull; payload]
  | invoke_submitted cb =>
      console_log [TAG; VStr "invoke submitted"] ;;
      call cb [VNull; payload]
  | invoke_error cb =>
      console_log [TAG; VStr "invoke failed. Error:"; payload] ;;
      call cb [payload]
  | query_complete cb =>
      console_log [TAG; VStr "Successfully completed query. Results:"; payload] ;;
      result <- eval (get payload "result") ;;
      call cb [VNull; result]
  | query_error cb =>
      console_log [TAG; VStr "query failed. Error:"; payload] ;;
      call cb [payload]
  end.

(** [function (task, callback) { task(callback); }] *)
Definition apply_worker (w : worker_fn) (t : task) (callback : nat) : M unit :=
  match w, t with
  | queue_worker, Task t => act (RunTask t callback)
  | queue_worker, TaskValue _ => throw TypeError
  end.

(** What [async.queue(worker, concurrency)] is given. *)
Record queue_obj : Type := async_queue {
  worker : worker_fn;
  concurrency : nat
}.

Record instance : Type := Instance {
  chain : chain_arg;
  chaincodeID : value;
  queue : queue_obj
}.

(** [new CPChaincode(chain, chaincodeID)] *)
Definition CPChaincode (chain : chain_arg) (chaincodeID : value)
  : outcome instance :=
  if negb (truthy_chain chain && truthy chaincodeID) then
    Throw (Error
      "Cannot create chaincode helper without both a chain object and the chaincode ID!")
  else
    Ret (Instance chain chaincodeID (async_queue queue_worker 1)).

Definition request (chaincodeID : value) (fcn : string) (args : list value)
  : value :=
  VObject [("chaincodeID", chaincodeID); ("fcn", VStr fcn); ("args", VArray args)].

Definition createCompany (this : instance) (enrollID : value) (cb : callback)
  : M unit :=
  console_log [TAG; VStr "Creating a company for:"; enrollID] ;;
  let createRequest := request (chaincodeID this) "createAccount" [enrollID] in
  invoke (chain this) enrollID createRequest (createCompany_cb cb).

Definition getCompany (this : instance) (enrollID company : value)
  (cb : callback) : M unit :=
  console_log [TAG; VStr "getting information on company:"; company] ;;
  let getCompanyRequest := request (chaincodeID this) "GetCompany" [company] in
  query (chain this) enrollID getCompanyRequest (getCompany_cb cb).

Definition createPaper (this : instance) (enrollID paper : value)
  (cb : callback) : M unit :=
  console_log [TAG; VStr "creating a new commercial paper"] ;;
  let createPaperRequest :=
    request (chaincodeID this) "issueCommercialPaper" [JSON_stringify paper] in
  invoke (chain this) enrollID createPaperRequest (createPaper_cb cb).

Definition ping_chaincodeID : string :=
  "5e3be7bd2c42bd0c8d72aaf3d41aaaae382fba4b8c6f6c0ba993df8322d956ca6e20c2ef67cd1e042a83d4725c3b23835ee65243c8d50a13a74679ed9afb8fdb".

Definition ping (this : instance) (enrollID : value) (cb : callback) : M unit :=
  console_log [TAG; VStr "creating a new commercial paper"] ;;
  let pingRequest :=
    VObject [("chaincodeID", VStr ping_chaincodeID);
             ("fcn", VStr "ping");
             ("args", VArray [VStr "string"]);
             ("attrs", VArray [VStr "username"; VStr "role"])] in
  invoke (chain this) enrollID pingRequest (ping_cb cb).

Definition transferPaper (this : instance) (enrollID paper : value)
  (cb : callback) : M unit :=
  console_log [TAG; VStr "transferring a commercial paper"] ;;
  let transferRequest :=
    request (chaincodeID this) "transferPaper" [JSON_stringify paper] in
  invoke (chain this) enrollID transferRequest (transferPaper_cb cb).

Definition getPapers (this : instance) (enrollID : value) (cb : callback)
  : M unit :=
  console_log [TAG; VStr "getting commercial papers"] ;;
  let getPapersRequest := request (chaincodeID this) "GetAllCPs" [enrollID] in
  query (chain this) enrollID getPapersRequest (getPapers_cb cb).

(** ** The environment *)

Inductive operation : Type :=
| CreateCompany (enrollID : value) (cb : callback)
| GetCompany (enrollID company : value) (cb : callback)
| CreatePaper (enrollID paper : value) (cb : callback)
| Ping (enrollID : value) (cb : callback)
| TransferPaper (enrollID paper : value) (cb : callback)
| GetPapers (enrollID : value) (cb : callback).

Definition perform (this : instance) (op : operation) : M unit :=
  match op with
  | CreateCompany enrollID cb => createCompany this enrollID cb
  | GetCompany enrollID company cb => getCompany this enrollID company cb
  | CreatePaper enrollID paper cb => createPaper this enrollID paper cb
  | Ping enrollID cb => ping this enrollID cb
  | TransferPaper enrollID paper cb => transferPaper this enrollID paper cb
  | GetPapers enrollID cb => getPapers this enrollID cb
  end.

Definition op_enrollID (op : operation) : value :=
  match op with
  | CreateCompany enrollID _ | GetCompany enrollID _ _
  | CreatePaper enrollID _ _ | Ping enrollID _
  | TransferPaper enrollID _ _ | GetPapers enrollID _ => enrollID
  end.

Definition op_callback (op : operation) : callback :=
  match op with
  | CreateCompany _ cb | GetCompany _ _ cb | CreatePaper _ _ cb | Ping _ cb
  | TransferPaper _ _ cb | GetPapers _ cb => cb
  end.

Definition is_query (op : operation) : bool :=
  match op with
  | GetCompany _ _ _ | GetPapers _ _ => true
  | _ => false
  end.

(** One turn of the event loop: the module runs until it returns or throws
    to whoever called into it. *)
Definition turn (m : M unit) (w : world) : world :=
  match m w with
  | (w', Ret _) => w'
  | (w', Throw e) => World (trace w' ++ [Thrown e]) (members w') (emitters w')
  end.

(** [emitter.emit(event, payload)]: the listeners registered for the event
    run in registration order; one that throws ends the dispatch. *)
Fixpoint emit (ls : list (string * listener)) (event : string) (payload : value)
  : M unit :=
  match ls with
  | [] => ret tt
  | (name, l) :: rest =>
      (if String.eqb name event then apply_listener l payload else ret tt) ;;
      emit rest event payload
  end.

(** What the environment may do: call an operation of an instance, have the
    chain answer the n-th [getMember] call, have the e-th emitter fire an
    event, have the queue of an instance run its worker on a task. *)
Inductive input : Type :=
| Op (this : instance) (op : operation)
| Answer (n : nat) (getMemberError : value) (usr : member_arg)
| Fire (e : nat) (event : string) (payload : value)
| Work (this : instance) (t : task) (callback : nat).

Definition step (w : world) (i : input) : world :=
  match i with
  | Op this op => turn (perform this op) w
  | Answer n getMemberError usr =>
      match nth_error (members w) n with
      | Some k => turn (apply_member_cb k getMemberError usr) w
      | None => w
      end
  | Fire e event payload => turn (emit (nth e (emitters w) []) event payload) w
  | Work this t callback => turn (apply_worker (worker (queue this)) t callback) w
  end.

Definition run (inputs : list input) (w : world) : world :=
  fold_left step inputs w.

(** *** Observations on a trace *)

(** The argument lists the caller's function [k] was called with. *)
Fixpoint calls (k : nat) (t : list action) : list (list value) :=
  match t with
  | [] => []
  | Call k' args :: rest =>
      if Nat.eqb k' k then args :: calls k rest else calls k rest
  | _ :: rest => calls k rest
  end.

Definition is_getMember (a : action) : bool :=
  match a with GetMember _ _ => true | _ => false end.

Definition is_call (a : action) : bool :=
  match a with Call _ _ => true | _ => false end.

Definition is_console (a : action) : bool :=
  match a with ConsoleLog _ | ConsoleError _ => true | _ => false end.

(** The trace without the console lines. *)
Definition quiet (t : list action) : list action :=
  filter (fun a => negb (is_console a)) t.

(** Operations that have reached the chain, calls made to the caller's
    functions, and the operations still in flight: those that have reached
    the chain and have not called back. *)
Definition started (t : list action) : nat := length (filter is_getMember t).
Definition called_back (t : list action) : nat := length (filter is_call t).
Definition in_flight (t : list action) : nat := started t - called_back t.

(** The function an operation hands to its helper, and the listeners its
    emitter ends up with. *)
Definition op_wrapper (op : operation) : callback :=
  match op with
  | CreateCompany _ cb => createCompany_cb cb
  | GetCompany _ _ cb => getCompany_cb cb
  | CreatePaper _ _ cb => createPaper_cb cb
  | Ping _ cb => ping_cb cb
  | TransferPaper _ _ cb => transferPaper_cb cb
  | GetPapers _ cb => getPapers_cb cb
  end.

(** The listeners an emitter carries once a helper has set it up. *)
Definition invoke_listeners (cb : callback) : list (string * listener) :=
  [("completed", invoke_completed cb);
   ("submitted", invoke_submitted cb);
   ("error", invoke_error cb)].

Definition query_listeners (cb : callback) : list (string * listener) :=
  [("complete", query_complete cb); ("error", query_error cb)].

Definition op_member_cb (op : operation) (requestBody : value) : member_cb :=
  if is_query op
  then query_getMember_cb (op_enrollID op) requestBody (op_wrapper op)
  else invoke_getMember_cb (op_enrollID op) requestBody (op_wrapper op).

Definition op_listeners (op : operation) : list (string * listener) :=
  if is_query op then query_listeners (op_wrapper op)
  else invoke_listeners (op_wrapper op).

Arguments JSON_stringify : simpl never.

(** *** Further observations *)

(** The function of the caller's a callback ends in, if it ends in one. *)
Fixpoint caller_of (cb : callback) : option nat :=
  match cb with
  | Caller k => Some k
  | CallbackValue _ => None
  | createCompany_cb cb | getCompany_cb cb | createPaper_cb cb | ping_cb cb
  | transferPaper_cb cb | getPapers_cb cb => caller_of cb
  end.

(** Requests handed to the SDK. *)
Definition is_submission (a : action) : bool :=
  match a with Invoke _ _ | Query _ _ => true | _ => false end.

(** The environment firing a list of events on one emitter, in order. *)
Definition fire_all (e : nat) (events : list (string * value)) : list input :=
  map (fun ev => Fire e (fst ev) (snd ev)) events.

(** The calls one event of an invoke emitter makes to the callback. *)
Definition invoke_calls (event : string) (payload : value) : list (list value) :=
  if String.eqb "completed" event then [[VNull; payload]]
  else if String.eqb "submitted" event then [[VNull; payload]]
  else if String.eqb "error" event then [[payload]]
  else [].

(** The callback a listener closes over. *)
Definition listener_callback (l : listener) : callback :=
  match l with
  | invoke_completed cb | invoke_submitted cb | invoke_error cb
  | query_complete cb | query_error cb => cb
  end.

(** A computation that adds to the trace and touches nothing else. *)
Definition trace_only {A} (m : M A) : Prop :=
  forall w, exists t o, m w = (World (trace w ++ t) (members w) (emitters w), o).

(** A computation that only adds to the trace, calls at most one function,
    and only the function of the caller that [cb] ends in. *)
Definition calls_within (cb : callback) (m : M unit) : Prop :=
  forall w, exists t o,
    m w = (World (trace w ++ t) (members w) (emitters w), o) /\
    (forall k, caller_of cb <> Some k -> calls k t = []) /\
    length (filter is_call t) <= 1.

(** What a turn leaves of the world it started from. *)
Definition extends (w w' : world) : Prop :=
  exists t ms es,
    w' = World (trace w ++ t) (members w ++ ms) (emitters w ++ es).

(** What an event on the emitter of an operation hands to the caller's
    function: the arguments of the call, or nothing when no call is made. *)
Definition handed (op : operation) (event : string) (payload : value)
  : option (list value) :=
  if String.eqb "error" event then
    if truthy payload then Some [payload] else None
  else if is_query op then
    if String.eqb "complete" event then
      match get payload "result" with
      | Some result =>
          match toString result with
          | Some s => Some [VNull; VStr s]
          | None => None
          end
      | None => None
      end
    else None
  else if String.eqb "completed" event || String.eqb "submitted" event then
    match toString payload with
    | Some _ => Some [VNull; payload]
    | None => None
    end
  else None.

(** The call an event makes to the function [k] of the caller, if any. *)
Definition call_made (k : nat) (op : operation) (event : string) (payload : value)
  : list action :=
  match handed op event payload with
  | Some args => [Call k args]
  | None => []
  end.

(** * Properties *)

(** ** JSON text read back *)















(** *** The shape of the texts *)









(** *** Reading each kind of text *)





















(** *** The length of a text is fuel enough *)









(** ** Lists, registration and traces *)

Lemma nth_error_last {A} (l : list A) (x : A) :
  nth_error (l ++ [x]) (length l) = Some x.
Proof.
  induction l as [|y l IH]; simpl; [reflexivity | exact IH].
Qed.

Lemma nth_last {A} (l : list A) (x d : A) : nth (length l) (l ++ [x]) d = x.
Proof.
  induction l as [|y l IH]; simpl; [reflexivity | exact IH].
Qed.

Lemma register_last es ls entry :
  register (length es) entry (es ++ [ls]) = es ++ [ls ++ [entry]].
Proof.
  induction es as [|l es IH]; simpl; [reflexivity | now rewrite IH].
Qed.

Lemma calls_app k t1 t2 : calls k (t1 ++ t2) = calls k t1 ++ calls k t2.
Proof.
  induction t1 as [|a t1 IH]; simpl; [reflexivity|].
  destruct a; try exact IH.
  destruct (Nat.eqb k0 k); simpl; now rewrite IH.
Qed.

(** ** The two helpers, turn by turn *)

Ltac flatten := simpl; rewrite <- ?app_assoc; simpl.

Lemma invoke_turn w c enrollID requestBody cb :
  turn (invoke (Chain c) enrollID requestBody cb) w =
  World (trace w ++ [ConsoleLog [TAG; VStr "Invoke transaction as:"; enrollID];
                     GetMember c enrollID])
        (members w ++ [invoke_getMember_cb enrollID requestBody cb])
        (emitters w).
Proof. unfold turn, invoke, bind. flatten. reflexivity. Qed.

Lemma query_turn w c enrollID requestBody cb :
  turn (query (Chain c) enrollID requestBody cb) w =
  World (trace w ++ [ConsoleLog [TAG; VStr "querying chaincode as:"; enrollID];
                     GetMember c enrollID])
        (members w ++ [query_getMember_cb enrollID requestBody cb])
        (emitters w).
Proof. unfold turn, query, bind. flatten. reflexivity. Qed.

Lemma invoke_member_turn w enrollID requestBody cb getMemberError m :
  truthy getMemberError = false ->
  turn (apply_member_cb (invoke_getMember_cb enrollID requestBody cb)
          getMemberError (Member m)) w =
  World (trace w ++ [ConsoleLog [TAG; VStr "successfully got member:"; enrollID];
                     ConsoleLog [TAG; VStr "invoke body:"; JSON_stringify requestBody];
                     Invoke m requestBody])
        (members w)
        (emitters w ++ [invoke_listeners cb]).
Proof.
  intros H. unfold turn, apply_member_cb. rewrite H.
  unfold bind, console_log, act, usr_invoke, new_emitter, tx_on. flatten.
  rewrite !register_last. reflexivity.
Qed.

Lemma query_member_turn w enrollID requestBody cb getMemberError m :
  truthy getMemberError = false ->
  turn (apply_member_cb (query_getMember_cb enrollID requestBody cb)
          getMemberError (Member m)) w =
  World (trace w ++ [ConsoleLog [TAG; VStr "successfully got member:"; enrollID];
                     ConsoleLog [TAG; VStr "query body:"; JSON_stringify requestBody];
                     Query m requestBody])
        (members w)
        (emitters w ++ [query_listeners cb]).
Proof.
  intros H. unfold turn, apply_member_cb. rewrite H.
  unfold bind, console_log, act, usr_query, new_emitter, tx_on. flatten.
  rewrite !register_last. reflexivity.
Qed.

Lemma invoke_session w c enrollID requestBody cb getMemberError m :
  truthy getMemberError = false ->
  let w1 := turn (invoke (Chain c) enrollID requestBody cb) w in
  let w2 := step w1 (Answer (length (members w)) getMemberError (Member m)) in
  w2 = World (trace w1 ++
                [ConsoleLog [TAG; VStr "successfully got member:"; enrollID];
                 ConsoleLog [TAG; VStr "invoke body:"; JSON_stringify requestBody];
                 Invoke m requestBody])
             (members w1) (emitters w ++ [invoke_listeners cb]) /\
  forall event payload,
    step w2 (Fire (length (emitters w)) event payload) =
    turn (emit (invoke_listeners cb) event payload) w2.
Proof.
  intros H w1 w2.
  assert (E : w2 = World (trace w1 ++
                [ConsoleLog [TAG; VStr "successfully got member:"; enrollID];
                 ConsoleLog [TAG; VStr "invoke body:"; JSON_stringify requestBody];
                 Invoke m requestBody])
             (members w1) (emitters w ++ [invoke_listeners cb])).
  { subst w2 w1. rewrite invoke_turn. unfold step. cbn [members].
    rewrite nth_error_last. now rewrite invoke_member_turn. }
  split; [exact E|].
  intros event payload. rewrite E. unfold step. cbn [emitters].
  now rewrite nth_last.
Qed.

Lemma query_session w c enrollID requestBody cb getMemberError m :
  truthy getMemberError = false ->
  let w1 := turn (query (Chain c) enrollID requestBody cb) w in
  let w2 := step w1 (Answer (length (members w)) getMemberError (Member m)) in
  w2 = World (trace w1 ++
                [ConsoleLog [TAG; VStr "successfully got member:"; enrollID];
                 ConsoleLog [TAG; VStr "query body:"; JSON_stringify requestBody];
                 Query m requestBody])
             (members w1) (emitters w ++ [query_listeners cb]) /\
  forall event payload,
    step w2 (Fire (length (emitters w)) event payload) =
    turn (emit (query_listeners cb) event payload) w2.
Proof.
  intros H w1 w2.
  assert (E : w2 = World (trace w1 ++
                [ConsoleLog [TAG; VStr "successfully got member:"; enrollID];
                 ConsoleLog [TAG; VStr "query body:"; JSON_stringify requestBody];
                 Query m requestBody])
             (members w1) (emitters w ++ [query_listeners cb])).
  { subst w2 w1. rewrite query_turn. unfold step. cbn [members].
    rewrite nth_error_last. now rewrite query_member_turn. }
  split; [exact E|].
  intros event payload. rewrite E. unfold step. cbn [emitters].
  now rewrite nth_last.
Qed.

(** An emitter set up by a helper runs exactly one listener per event. *)
Lemma emit_invoke cb payload w :
  turn (emit (invoke_listeners cb) "completed" payload) w =
    turn (apply_listener (invoke_completed cb) payload) w /\
  turn (emit (invoke_listeners cb) "submitted" payload) w =
    turn (apply_listener (invoke_submitted cb) payload) w /\
  turn (emit (invoke_listeners cb) "error" payload) w =
    turn (apply_listener (invoke_error cb) payload) w.
Proof.
  repeat split.
  - change (emit (invoke_listeners cb) "completed" payload)
      with (apply_listener (invoke_completed cb) payload ;;
            ret tt ;; ret tt ;; ret tt).
    generalize (apply_listener (invoke_completed cb) payload) as m; intros m.
    unfold turn, bind, ret. destruct (m w) as [w' [[]|e]]; reflexivity.
  - change (emit (invoke_listeners cb) "submitted" payload)
      with (ret tt ;; apply_listener (invoke_submitted cb) payload ;;
            ret tt ;; ret tt).
    generalize (apply_listener (invoke_submitted cb) payload) as m; intros m.
    unfold turn, bind, ret. destruct (m w) as [w' [[]|e]]; reflexivity.
  - change (emit (invoke_listeners cb) "error" payload)
      with (ret tt ;; ret tt ;; apply_listener (invoke_error cb) payload ;;
            ret tt).
    generalize (apply_listener (invoke_error cb) payload) as m; intros m.
    unfold turn, bind, ret. destruct (m w) as [w' [[]|e]]; reflexivity.
Qed.

Lemma emit_query cb payload w :
  turn (emit (query_listeners cb) "complete" payload) w =
    turn (apply_listener (query_complete cb) payload) w /\
  turn (emit (query_listeners cb) "error" payload) w =
    turn (apply_listener (query_error cb) payload) w.
Proof.
  split.
  - change (emit (query_listeners cb) "complete" payload)
      with (apply_listener (query_complete cb) payload ;; ret tt ;; ret tt).
    generalize (apply_listener (query_complete cb) payload) as m; intros m.
    unfold turn, bind, ret. destruct (m w) as [w' [[]|e]]; reflexivity.
  - change (emit (query_listeners cb) "error" payload)
      with (ret tt ;; apply_listener (query_error cb) payload ;; ret tt).
    generalize (apply_listener (query_error cb) payload) as m; intros m.
    unfold turn, bind, ret. destruct (m w) as [w' [[]|e]]; reflexivity.
Qed.

(** A value that is truthy is neither undefined nor null: its properties
    can be read. *)
Lemma truthy_get v name : truthy v = true -> exists x, get v name = Some x.
Proof.
  destruct v; simpl; try discriminate; eauto.
Qed.

(** ** First terminal event of an invoke *)

(** C4: once [invoke] has resolved the member and submitted the request, a
    [completed] event and a [submitted] event each call the callback with a
    null error and the event's result, and an [error] event calls it with
    the error alone. *)
Theorem invoke_event_resolves w c enrollID requestBody k getMemberError m payload :
  truthy getMemberError = false ->
  let w1 := turn (invoke (Chain c) enrollID requestBody (Caller k)) w in
  let w2 := step w1 (Answer (length (members w)) getMemberError (Member m)) in
  let fired event := trace (step w2 (Fire (length (emitters w)) event payload)) in
  fired "completed" =
    trace w2 ++
      [ConsoleLog [TAG; VStr "Successfully completed invoke. Results:"; payload];
       Call k [VNull; payload]] /\
  fired "submitted" =
    trace w2 ++
      [ConsoleLog [TAG; VStr "invoke submitted"]; Call k [VNull; payload]] /\
  fired "error" =
    trace w2 ++
      [ConsoleLog [TAG; VStr "invoke failed. Error:"; payload]; Call k [payload]].
Proof.
  intros H w1 w2 fired.
  destruct (invoke_session w c enrollID requestBody (Caller k) _ m H) as [_ F].
  fold w1 in F. fold w2 in F. subst fired. cbv beta. rewrite !F.
  destruct (emit_invoke (Caller k) payload w2) as (A & B & C).
  rewrite A, B, C. unfold turn. repeat split; flatten; reflexivity.
Qed.

Lemma invoke_event_resolves_witness :
  truthy VNull = false /\
  trace (step (step (turn (invoke (Chain 0) (VStr "alice") (VStr "body") (Caller 3))
                       empty)
                 (Answer 0 VNull (Member 7)))
           (Fire 0 "submitted" (VStr "tx1"))) =
    trace (step (turn (invoke (Chain 0) (VStr "alice") (VStr "body") (Caller 3)) empty)
             (Answer 0 VNull (Member 7))) ++
      [ConsoleLog [TAG; VStr "invoke submitted"]; Call 3 [VNull; VStr "tx1"]].
Proof.
  split; [reflexivity|].
  exact (proj1 (proj2 (invoke_event_resolves empty 0 (VStr "alice") (VStr "body")
                         3 VNull 7 (VStr "tx1") eq_refl))).
Defined.

(** ** More than one terminal event *)

Lemma fire_invoke_caller w e k payload :
  nth e (emitters w) [] = invoke_listeners (Caller k) ->
  step w (Fire e "completed" payload) =
    World (trace w ++
             [ConsoleLog [TAG; VStr "Successfully completed invoke. Results:"; payload];
              Call k [VNull; payload]]) (members w) (emitters w) /\
  step w (Fire e "submitted" payload) =
    World (trace w ++
             [ConsoleLog [TAG; VStr "invoke submitted"]; Call k [VNull; payload]])
          (members w) (emitters w) /\
  step w (Fire e "error" payload) =
    World (trace w ++
             [ConsoleLog [TAG; VStr "invoke failed. Error:"; payload];
              Call k [payload]]) (members w) (emitters w).
Proof.
  intros H. unfold step. rewrite H.
  destruct (emit_invoke (Caller k) payload w) as (A & B & C).
  rewrite A, B, C. unfold turn. repeat split; flatten; reflexivity.
Qed.

(** C2, as the code has it: when the emitter fires [error] and then
    [completed], the callback is called twice, first with the error and then
    with a null error and the result of [completed].  Every terminal event
    that fires calls the callback; none is ignored. *)
Theorem invoke_error_then_completed w c enrollID requestBody k getMemberError m
    err results :
  truthy getMemberError = false ->
  let w1 := turn (invoke (Chain c) enrollID requestBody (Caller k)) w in
  let w2 := step w1 (Answer (length (members w)) getMemberError (Member m)) in
  let e := length (emitters w) in
  trace (run [Fire e "error" err; Fire e "completed" results] w2) =
    trace w2 ++
      [ConsoleLog [TAG; VStr "invoke failed. Error:"; err];
       Call k [err];
       ConsoleLog [TAG; VStr "Successfully completed invoke. Results:"; results];
       Call k [VNull; results]] /\
  calls k (trace (run [Fire e "error" err; Fire e "completed" results] w2)) =
    calls k (trace w2) ++ [[err]; [VNull; results]].
Proof.
  intros H w1 w2 e.
  destruct (invoke_session w c enrollID requestBody (Caller k) _ m H) as [E _].
  fold w1 in E. fold w2 in E.
  assert (L : nth e (emitters w2) [] = invoke_listeners (Caller k)).
  { rewrite E. cbn [emitters]. apply nth_last. }
  assert (T : trace (run [Fire e "error" err; Fire e "completed" results] w2) =
    trace w2 ++
      [ConsoleLog [TAG; VStr "invoke failed. Error:"; err];
       Call k [err];
       ConsoleLog [TAG; VStr "Successfully completed invoke. Results:"; results];
       Call k [VNull; results]]).
  { unfold run, fold_left.
    destruct (fire_invoke_caller w2 e k err L) as (_ & _ & C). rewrite C.
    match goal with |- trace (step ?w3 _) = _ =>
      destruct (fire_invoke_caller w3 e k results L) as (A & _ & _); rewrite A
    end.
    flatten. reflexivity. }
  split; [exact T|].
  rewrite T, calls_app. simpl. now rewrite Nat.eqb_refl.
Qed.

(** ** The operations, turn by turn *)

Lemma banner_turn line (m : M unit) w :
  turn (console_log line ;; m) w =
  turn m (World (trace w ++ [ConsoleLog line]) (members w) (emitters w)).
Proof. reflexivity. Qed.

Lemma CPChaincode_fields chain0 id this :
  CPChaincode chain0 id = Ret this ->
  chain this = chain0 /\ chaincodeID this = id /\
  queue this = async_queue queue_worker 1 /\
  truthy_chain chain0 = true /\ truthy id = true.
Proof.
  unfold CPChaincode.
  destruct (truthy_chain chain0) eqn:A, (truthy id) eqn:B; simpl;
    intros H; inversion H; subst; auto.
Qed.

(** Every operation logs its banner, lets its helper log, and calls
    [chain.getMember] with the enrollID it was given. *)
Lemma op_turn w this c op :
  chain this = Chain c ->
  exists banner helper requestBody,
    step w (Op this op) =
    World (trace w ++ [ConsoleLog banner; ConsoleLog helper;
                       GetMember c (op_enrollID op)])
          (members w ++ [op_member_cb op requestBody])
          (emitters w).
Proof.
  intros Hc. unfold step, perform, op_member_cb.
  destruct op; cbn [is_query op_enrollID op_wrapper];
    unfold createCompany, getCompany, createPaper, ping, transferPaper, getPapers;
    rewrite banner_turn, Hc; rewrite ?invoke_turn, ?query_turn;
    cbn [trace members emitters]; rewrite <- app_assoc; do 3 eexists; reflexivity.
Qed.

(** Once the chain has answered with a member, the request is submitted
    and the listeners of the operation sit on a fresh emitter. *)
Lemma op_session w this c op getMemberError m :
  chain this = Chain c ->
  truthy getMemberError = false ->
  exists banner helper body requestBody,
    step (step w (Op this op)) (Answer (length (members w)) getMemberError (Member m)) =
    World (trace w ++
             [ConsoleLog banner; ConsoleLog helper; GetMember c (op_enrollID op);
              ConsoleLog [TAG; VStr "successfully got member:"; op_enrollID op];
              ConsoleLog body;
              if is_query op then Query m requestBody else Invoke m requestBody])
          (members w ++ [op_member_cb op requestBody])
          (emitters w ++ [op_listeners op]).
Proof.
  intros Hc He.
  destruct (op_turn w this c op Hc) as (banner & helper & requestBody & E).
  rewrite E. unfold step. cbn [members]. rewrite nth_error_last.
  unfold op_member_cb, op_listeners.
  destruct (is_query op).
  - rewrite query_member_turn by exact He. cbn [trace members emitters].
    rewrite <- app_assoc. do 4 eexists. reflexivity.
  - rewrite invoke_member_turn by exact He. cbn [trace members emitters].
    rewrite <- app_assoc. do 4 eexists. reflexivity.
Qed.

Lemma calls_console k t line :
  calls k (t ++ [ConsoleLog line]) = calls k t /\
  calls k (t ++ [ConsoleError line]) = calls k t.
Proof. rewrite !calls_app. simpl. now rewrite app_nil_r. Qed.

(** Submitting calls nobody back. *)
Lemma op_session_calls w this c op getMemberError m k :
  chain this = Chain c ->
  truthy getMemberError = false ->
  let w2 := step (step w (Op this op))
              (Answer (length (members w)) getMemberError (Member m)) in
  calls k (trace w2) = calls k (trace w) /\
  nth (length (emitters w)) (emitters w2) [] = op_listeners op.
Proof.
  intros Hc He w2.
  destruct (op_session w this c op getMemberError m Hc He)
    as (banner & helper & body & requestBody & E).
  subst w2. rewrite E. cbn [trace emitters]. split.
  - rewrite calls_app.
    destruct (is_query op); simpl; now rewrite app_nil_r.
  - apply nth_last.
Qed.

(** ** What the operations hand to the caller *)

Lemma wrapper_invoke_success op k result s w :
  is_query op = false ->
  op_callback op = Caller k ->
  toString result = Some s ->
  exists line,
    call (op_wrapper op) [VNull; result] w =
    (World (trace w ++ [ConsoleLog line; Call k [VNull; result]])
       (members w) (emitters w), Ret tt).
Proof.
  intros Hq Hk Hs.
  destruct op; try discriminate Hq; cbn [op_callback] in Hk; subst cb;
    cbn [op_wrapper call arg nth truthy]; unfold bind; rewrite Hs;
    cbn [eval call]; unfold ret, console_log, act;
    cbn [trace members emitters]; rewrite <- app_assoc; eexists; reflexivity.
Qed.

Lemma wrapper_query_success op k result s w :
  is_query op = true ->
  op_callback op = Caller k ->
  toString result = Some s ->
  exists line,
    call (op_wrapper op) [VNull; result] w =
    (World (trace w ++ [ConsoleLog line; Call k [VNull; VStr s]])
       (members w) (emitters w), Ret tt).
Proof.
  intros Hq Hk Hs.
  destruct op; try discriminate Hq; cbn [op_callback] in Hk; subst cb;
    cbn [op_wrapper call arg nth truthy]; unfold bind; rewrite Hs;
    cbn [eval call]; unfold ret, console_log, act;
    cbn [trace members emitters]; rewrite <- app_assoc; eexists; reflexivity.
Qed.

Lemma wrapper_error op k err w :
  op_callback op = Caller k ->
  truthy err = true ->
  exists line,
    call (op_wrapper op) [err] w =
    (World (trace w ++ [ConsoleError line; Call k [err]])
       (members w) (emitters w), Ret tt).
Proof.
  intros Hk He.
  destruct op; cbn [op_callback] in Hk; subst cb;
    cbn [op_wrapper call arg nth]; rewrite He; unfold bind;
    cbn [call]; unfold console_error, act;
    cbn [trace members emitters]; rewrite <- app_assoc; eexists; reflexivity.
Qed.

Lemma turn_ret (m : M unit) w w' : m w = (w', Ret tt) -> turn m w = w'.
Proof. unfold turn. now intros ->. Qed.

Lemma calls_result k t line args :
  calls k (t ++ [ConsoleLog line; Call k args]) = calls k t ++ [args] /\
  calls k (t ++ [ConsoleError line; Call k args]) = calls k t ++ [args].
Proof. rewrite !calls_app. simpl. now rewrite Nat.eqb_refl. Qed.

Lemma fire_listeners w e ls event payload :
  nth e (emitters w) [] = ls ->
  step w (Fire e event payload) = turn (emit ls event payload) w.
Proof. intros <-. reflexivity. Qed.

Ltac caller_gets k line :=
  cbn [trace]; rewrite ?(proj1 (calls_result k _ line _)),
                       ?(proj2 (calls_result k _ line _));
  now rewrite (proj1 (calls_console k _ _)).

Section Fired.
Variables (w : world) (e k : nat) (op : operation) (payload : value).
Hypothesis listening : nth e (emitters w) [] = op_listeners op.
Hypothesis caller : op_callback op = Caller k.

Lemma op_fire_complete result s :
  is_query op = true ->
  get payload "result" = Some result ->
  toString result = Some s ->
  calls k (trace (step w (Fire e "complete" payload))) =
  calls k (trace w) ++ [[VNull; VStr s]].
Proof.
  intros Hq Hr Hs.
  rewrite (fire_listeners w _ _ _ payload listening).
  unfold op_listeners. rewrite Hq.
  rewrite (proj1 (emit_query (op_wrapper op) payload w)).
  unfold apply_listener. rewrite banner_turn.
  match goal with |- context [turn _ ?w0] =>
    destruct (wrapper_query_success op k result s w0 Hq caller Hs) as [line E];
    rewrite (turn_ret _ w0 _
               (eq_trans (f_equal (fun o => bind (eval o) _ w0) Hr) E))
  end.
  caller_gets k line.
Qed.

Lemma op_fire_completed event s :
  is_query op = false ->
  event = "completed" \/ event = "submitted" ->
  toString payload = Some s ->
  calls k (trace (step w (Fire e event payload))) =
  calls k (trace w) ++ [[VNull; payload]].
Proof.
  intros Hq Hev Hs.
  rewrite (fire_listeners w _ _ _ payload listening).
  unfold op_listeners. rewrite Hq.
  destruct (emit_invoke (op_wrapper op) payload w) as (A & B & _).
  destruct Hev as [-> | ->]; [rewrite A | rewrite B];
    unfold apply_listener; rewrite banner_turn;
    match goal with |- context [turn _ ?w0] =>
      destruct (wrapper_invoke_success op k payload s w0 Hq caller Hs)
        as [line E];
      rewrite (turn_ret _ w0 _ E)
    end;
    caller_gets k line.
Qed.

Lemma op_fire_error :
  truthy payload = true ->
  calls k (trace (step w (Fire e "error" payload))) =
  calls k (trace w) ++ [[payload]].
Proof.
  intros Ht.
  rewrite (fire_listeners w _ _ _ payload listening).
  unfold op_listeners.
  destruct (is_query op);
    [rewrite (proj2 (emit_query (op_wrapper op) payload w))
    |rewrite (proj2 (proj2 (emit_invoke (op_wrapper op) payload w)))];
    unfold apply_listener; rewrite banner_turn;
    match goal with |- context [turn _ ?w0] =>
      destruct (wrapper_error op k payload w0 caller Ht) as [line E];
      rewrite (turn_ret _ w0 _ E)
    end;
    caller_gets k line.
Qed.
End Fired.


(** C3 as the specification words it fails: [createCompany] hands the
    caller the Buffer the [completed] event carried, not a string. *)
Lemma createCompany_hands_over_buffer :
  calls 0 (trace (run
      [Op (Instance (Chain 0) (VStr "cp") (async_queue queue_worker 1))
          (CreateCompany (VStr "alice") (Caller 0));
       Answer 0 VNull (Member 7);
       Fire 0 "completed" (VBuffer [x6f; x6b])] empty))
  = [[VNull; VBuffer [x6f; x6b]]] /\
  is_string (VBuffer [x6f; x6b]) = false.
Proof. split; reflexivity. Qed.

(** C2 as the specification words it fails: with [error] fired before
    [completed] the caller's function runs twice, and the second call is a
    success. *)
Lemma second_event_not_ignored :
  calls 0 (trace (run
      [Op (Instance (Chain 0) (VStr "cp") (async_queue queue_worker 1))
          (CreateCompany (VStr "alice") (Caller 0));
       Answer 0 VNull (Member 7);
       Fire 0 "error" (VError "boom");
       Fire 0 "completed" (VStr "tx1")] empty))
  = [[VError "boom"]; [VNull; VStr "tx1"]] /\
  calls 0 (trace (run
      [Answer 0 VNull (Member 7);
       Fire 0 "error" (VError "boom");
       Fire 0 "completed" (VStr "tx1")]
      (turn (invoke (Chain 0) (VStr "alice") (VStr "body") (Caller 0)) empty)))
  = [[VError "boom"]; [VNull; VStr "tx1"]].
Proof. split; reflexivity. Qed.

Lemma invoke_error_then_completed_witness :
  truthy VNull = false /\
  calls 3 (trace (run [Fire 0 "error" (VError "boom");
                       Fire 0 "completed" (VStr "tx1")]
                   (step (turn (invoke (Chain 0) (VStr "alice") (VStr "body")
                                  (Caller 3)) empty)
                      (Answer 0 VNull (Member 7)))))
  = [[VError "boom"]; [VNull; VStr "tx1"]].
Proof.
  split; [reflexivity|].
  exact (proj2 (invoke_error_then_completed empty 0 (VStr "alice") (VStr "body") 3
                  VNull 7 (VError "boom") (VStr "tx1") eq_refl)).
Defined.

(** ** Queries *)

Lemma fire_query_caller w e k payload :
  nth e (emitters w) [] = query_listeners (Caller k) ->
  (forall result,
     get payload "result" = Some result ->
     step w (Fire e "complete" payload) =
       World (trace w ++
                [ConsoleLog [TAG; VStr "Successfully completed query. Results:"; payload];
                 Call k [VNull; result]]) (members w) (emitters w)) /\
  step w (Fire e "error" payload) =
    World (trace w ++
             [ConsoleLog [TAG; VStr "query failed. Error:"; payload];
              Call k [payload]]) (members w) (emitters w).
Proof.
  intros H. unfold step. rewrite H.
  destruct (emit_query (Caller k) payload w) as (A & B).
  rewrite A, B. unfold turn. split.
  - intros result Hr. unfold apply_listener, bind, console_log, act.
    rewrite Hr. flatten. reflexivity.
  - flatten. reflexivity.
Qed.


(** ** A callback that is missing *)

Lemma failed_to_get_turn enrollID getMemberError s w :
  coerce enrollID = Some s ->
  truthy getMemberError = true ->
  exists message,
    get getMemberError "message" = Some message /\
    failed_to_get enrollID getMemberError w =
    (World (trace w ++
              [ConsoleError [TAG; VStr ("failed to get " ++ s ++ " member:")%string;
                             message]])
       (members w) (emitters w), Ret tt).
Proof.
  intros Hs Ht. destruct (truthy_get getMemberError "message" Ht) as [x Hx].
  exists x. split; [exact Hx|].
  unfold failed_to_get, bind. rewrite Hs, Hx. reflexivity.
Qed.

(** C10: with a falsy value for the callback, a [getMember] error is logged
    and nothing else happens: no call, no exception, in [invoke] and in
    [query] alike.  When the member is resolved instead, each terminal event
    calls the callback without a test, and the call of the falsy value
    throws a TypeError. *)
Theorem missing_callback w c enrollID requestBody v getMemberError usr m s payload :
  truthy v = false ->
  coerce enrollID = Some s ->
  let n := length (members w) in
  let e := length (emitters w) in
  let i1 := turn (invoke (Chain c) enrollID requestBody (CallbackValue v)) w in
  let q1 := turn (query (Chain c) enrollID requestBody (CallbackValue v)) w in
  (truthy getMemberError = true ->
   exists message,
     get getMemberError "message" = Some message /\
     step i1 (Answer n getMemberError usr) =
       World (trace i1 ++
                [ConsoleError [TAG; VStr ("failed to get " ++ s ++ " member:")%string;
                               message]])
             (members i1) (emitters i1) /\
     step q1 (Answer n getMemberError usr) =
       World (trace q1 ++
                [ConsoleError [TAG; VStr ("failed to get " ++ s ++ " member:")%string;
                               message]])
             (members q1) (emitters q1)) /\
  (truthy getMemberError = false ->
   let i2 := step i1 (Answer n getMemberError (Member m)) in
   let q2 := step q1 (Answer n getMemberError (Member m)) in
   trace (step i2 (Fire e "completed" payload)) =
     trace i2 ++
       [ConsoleLog [TAG; VStr "Successfully completed invoke. Results:"; payload];
        Thrown TypeError] /\
   trace (step i2 (Fire e "submitted" payload)) =
     trace i2 ++ [ConsoleLog [TAG; VStr "invoke submitted"]; Thrown TypeError] /\
   trace (step i2 (Fire e "error" payload)) =
     trace i2 ++
       [ConsoleLog [TAG; VStr "invoke failed. Error:"; payload]; Thrown TypeError] /\
   trace (step q2 (Fire e "complete" payload)) =
     trace q2 ++
       [ConsoleLog [TAG; VStr "Successfully completed query. Results:"; payload];
        Thrown TypeError] /\
   trace (step q2 (Fire e "error" payload)) =
     trace q2 ++
       [ConsoleLog [TAG; VStr "query failed. Error:"; payload]; Thrown TypeError]).
Proof.
  intros Hv Hs n e i1 q1. split.
  - intros Ht.
    destruct (truthy_get getMemberError "message" Ht) as [message Hm].
    exists message. split; [exact Hm|].
    subst i1 q1 n. rewrite invoke_turn, query_turn. unfold step.
    cbn [members]. rewrite !nth_error_last.
    unfold turn, apply_member_cb. rewrite Ht. cbn [truthy_callback]. rewrite Hv.
    unfold bind.
    split.
    + match goal with |- context [failed_to_get _ _ ?w0] =>
        destruct (failed_to_get_turn enrollID getMemberError s w0 Hs Ht)
          as (x & Hx & E); rewrite E
      end.
      rewrite Hm in Hx. inversion Hx. reflexivity.
    + match goal with |- context [failed_to_get _ _ ?w0] =>
        destruct (failed_to_get_turn enrollID getMemberError s w0 Hs Ht)
          as (x & Hx & E); rewrite E
      end.
      rewrite Hm in Hx. inversion Hx. reflexivity.
  - intros Hf i2 q2.
    destruct (invoke_session w c enrollID requestBody (CallbackValue v) _ m Hf)
      as [_ Fi].
    destruct (query_session w c enrollID requestBody (CallbackValue v) _ m Hf)
      as [_ Fq].
    fold n in Fi, Fq. fold i1 in Fi. fold q1 in Fq. fold i2 in Fi. fold q2 in Fq.
    fold e in Fi, Fq. rewrite !Fi, !Fq.
    destruct (emit_invoke (CallbackValue v) payload i2) as (A & B & C).
    destruct (emit_query (CallbackValue v) payload q2) as (D & E).
    rewrite A, B, C, D, E. unfold turn.
    repeat split; try (flatten; reflexivity).
    unfold apply_listener, bind, console_log, act.
    destruct (get payload "result"); flatten; reflexivity.
Qed.

Lemma missing_callback_witness :
  step (turn (invoke (Chain 0) (VStr "alice") (VStr "body") (CallbackValue VUndefined))
          empty)
    (Answer 0 (VError "unknown user") (MemberValue VUndefined)) =
  World [ConsoleLog [TAG; VStr "Invoke transaction as:"; VStr "alice"];
         GetMember 0 (VStr "alice");
         ConsoleError [TAG; VStr "failed to get alice member:"; VStr "unknown user"]]
        [invoke_getMember_cb (VStr "alice") (VStr "body") (CallbackValue VUndefined)]
        [] /\
  trace (step (step (turn (query (Chain 0) (VStr "alice") (VStr "body")
                             (CallbackValue VUndefined)) empty)
                 (Answer 0 VNull (Member 7)))
           (Fire 0 "error" (VError "boom"))) =
  [ConsoleLog [TAG; VStr "querying chaincode as:"; VStr "alice"];
   GetMember 0 (VStr "alice");
   ConsoleLog [TAG; VStr "successfully got member:"; VStr "alice"];
   ConsoleLog [TAG; VStr "query body:"; JSON_stringify (VStr "body")];
   Query 7 (VStr "body");
   ConsoleLog [TAG; VStr "query failed. Error:"; VError "boom"];
   Thrown TypeError].
Proof.
  split.
  - destruct (proj1 (missing_callback empty 0 (VStr "alice") (VStr "body") VUndefined
                       (VError "unknown user") (MemberValue VUndefined) 7 "alice"
                       VNull eq_refl eq_refl) eq_refl) as (message & Hm & Hi & _).
    inversion Hm. subst message. exact Hi.
  - exact (proj2 (proj2 (proj2 (proj2
             (proj2 (missing_callback empty 0 (VStr "alice") (VStr "body") VUndefined
                       VNull (Member 7) 7 "alice" (VError "boom") eq_refl eq_refl)
                eq_refl))))).
Defined.

(** ** The constructor *)

(** C5: the constructor throws exactly when the chain or the chaincode ID is
    falsy; otherwise it returns an instance holding both.  Nothing else is
    checked: whatever values an operation is given, on whatever instance, it
    reaches [chain.getMember] with the enrollID as given and, once the chain
    has answered with a member, submits its request. *)
Theorem constructor_is_the_only_check chain0 id w c q op getMemberError m :
  (CPChaincode chain0 id =
     Throw (Error
       "Cannot create chaincode helper without both a chain object and the chaincode ID!")
   <-> truthy_chain chain0 = false \/ truthy id = false) /\
  (truthy_chain chain0 = true -> truthy id = true ->
   exists q', CPChaincode chain0 id = Ret (Instance chain0 id q')) /\
  (truthy getMemberError = false ->
   exists banner helper body requestBody,
     trace (step (step w (Op (Instance (Chain c) id q) op))
              (Answer (length (members w)) getMemberError (Member m))) =
     trace w ++
       [ConsoleLog banner; ConsoleLog helper; GetMember c (op_enrollID op);
        ConsoleLog [TAG; VStr "successfully got member:"; op_enrollID op];
        ConsoleLog body;
        if is_query op then Query m requestBody else Invoke m requestBody]).
Proof.
  repeat split.
  - unfold CPChaincode.
    destruct (truthy_chain chain0), (truthy id); simpl; intros H;
      try discriminate H; auto.
  - unfold CPChaincode.
    intros [H | H]; rewrite H; [|rewrite andb_false_r]; reflexivity.
  - intros A B. unfold CPChaincode. rewrite A, B. simpl. eexists. reflexivity.
  - intros He.
    destruct (op_session w (Instance (Chain c) id q) c op getMemberError m
                eq_refl He) as (banner & helper & body & requestBody & E).
    exists banner, helper, body, requestBody. now rewrite E.
Qed.

Lemma constructor_is_the_only_check_witness :
  (exists q', CPChaincode (Chain 0) (VStr "cp") = Ret (Instance (Chain 0) (VStr "cp") q')) /\
  CPChaincode (Chain 0) (VStr EmptyString) =
    Throw (Error
      "Cannot create chaincode helper without both a chain object and the chaincode ID!") /\
  exists banner helper body requestBody,
    trace (step (step empty
                   (Op (Instance (Chain 0) VUndefined (async_queue queue_worker 1))
                       (CreatePaper VNull (VNum (lit 0)) (CallbackValue VNull))))
             (Answer 0 VNull (Member 7))) =
    [ConsoleLog banner; ConsoleLog helper; GetMember 0 VNull;
     ConsoleLog [TAG; VStr "successfully got member:"; VNull];
     ConsoleLog body; Invoke 7 requestBody].
Proof.
  split; [|split].
  - exact (proj1 (proj2 (constructor_is_the_only_check (Chain 0) (VStr "cp") empty 0
                           (async_queue queue_worker 1)
                           (Ping VNull (Caller 0)) VNull 7))
             eq_refl eq_refl).
  - exact (proj2 (proj1 (constructor_is_the_only_check (Chain 0) (VStr EmptyString)
                           empty 0 (async_queue queue_worker 1)
                           (Ping VNull (Caller 0)) VNull 7))
             (or_intror eq_refl)).
  - exact (proj2 (proj2 (constructor_is_the_only_check (Chain 0) VUndefined empty 0
                           (async_queue queue_worker 1)
                           (CreatePaper VNull (VNum (lit 0)) (CallbackValue VNull)) VNull 7))
             eq_refl).
Defined.

(** ** The requests the operations build *)

Lemma facade_invoke w this c line enrollID requestBody cb getMemberError m :
  chain this = Chain c ->
  truthy getMemberError = false ->
  let w1 := turn (console_log line ;;
                  invoke (chain this) enrollID requestBody cb) w in
  let w2 := step w1 (Answer (length (members w)) getMemberError (Member m)) in
  trace w1 =
    trace w ++ [ConsoleLog line;
                ConsoleLog [TAG; VStr "Invoke transaction as:"; enrollID];
                GetMember c enrollID] /\
  trace w2 =
    trace w1 ++ [ConsoleLog [TAG; VStr "successfully got member:"; enrollID];
                 ConsoleLog [TAG; VStr "invoke body:"; JSON_stringify requestBody];
                 Invoke m requestBody].
Proof.
  intros Hc He w1 w2. subst w2 w1. rewrite banner_turn, Hc.
  match goal with |- context [turn _ ?w0] =>
    destruct (invoke_session w0 c enrollID requestBody cb getMemberError m He)
      as [E _]
  end.
  cbn [members] in E. rewrite E. rewrite invoke_turn. cbn [trace].
  rewrite <- app_assoc. split; reflexivity.
Qed.

(** C7: [createCompany] asks the chain for the member [enrollID] and, once it
    has it, invokes with the request whose [chaincodeID] is the one the
    constructor was given, whose [fcn] is createAccount and whose [args] is
    the one-element list holding [enrollID]. *)
Theorem createCompany_request chain0 id this c w enrollID cb getMemberError m :
  CPChaincode chain0 id = Ret this ->
  chain0 = Chain c ->
  truthy getMemberError = false ->
  let createRequest :=
    VObject [("chaincodeID", id); ("fcn", VStr "createAccount");
             ("args", VArray [enrollID])] in
  let w1 := step w (Op this (CreateCompany enrollID cb)) in
  let w2 := step w1 (Answer (length (members w)) getMemberError (Member m)) in
  trace w1 =
    trace w ++ [ConsoleLog [TAG; VStr "Creating a company for:"; enrollID];
                ConsoleLog [TAG; VStr "Invoke transaction as:"; enrollID];
                GetMember c enrollID] /\
  trace w2 =
    trace w1 ++ [ConsoleLog [TAG; VStr "successfully got member:"; enrollID];
                 ConsoleLog [TAG; VStr "invoke body:"; JSON_stringify createRequest];
                 Invoke m createRequest].
Proof.
  intros Hnew -> He.
  destruct (CPChaincode_fields _ _ _ Hnew) as (Hc & Hid & _).
  rewrite <- Hid.
  exact (facade_invoke w this c _ enrollID _ (createCompany_cb cb) _ m Hc He).
Qed.

Lemma createCompany_request_witness :
  CPChaincode (Chain 0) (VStr "cp") =
    Ret (Instance (Chain 0) (VStr "cp") (async_queue queue_worker 1)) /\
  truthy VNull = false /\
  trace (step (step empty
      (Op (Instance (Chain 0) (VStr "cp") (async_queue queue_worker 1))
          (CreateCompany (VStr "alice") (Caller 0))))
      (Answer 0 VNull (Member 7))) =
  trace (step empty
      (Op (Instance (Chain 0) (VStr "cp") (async_queue queue_worker 1))
          (CreateCompany (VStr "alice") (Caller 0)))) ++
  [ConsoleLog [TAG; VStr "successfully got member:"; VStr "alice"];
   ConsoleLog [TAG; VStr "invoke body:";
               JSON_stringify
                 (VObject [("chaincodeID", VStr "cp"); ("fcn", VStr "createAccount");
                           ("args", VArray [VStr "alice"])])];
   Invoke 7 (VObject [("chaincodeID", VStr "cp"); ("fcn", VStr "createAccount");
                      ("args", VArray [VStr "alice"])])].
Proof.
  split; [reflexivity|]. split; [reflexivity|].
  exact (proj2 (createCompany_request (Chain 0) (VStr "cp")
                  (Instance (Chain 0) (VStr "cp") (async_queue queue_worker 1)) 0
                  empty (VStr "alice") (Caller 0) VNull 7 eq_refl eq_refl eq_refl)).
Defined.

(** C6: whatever chaincode ID the instance was built with, [ping] invokes
    with the fixed chaincode ID written in the source, [fcn] ping, [args]
    holding the one string "string", and [attrs] username and role. *)
Theorem ping_request chain0 id this c w enrollID cb getMemberError m :
  CPChaincode chain0 id = Ret this ->
  chain0 = Chain c ->
  truthy getMemberError = false ->
  let pingRequest :=
    VObject [("chaincodeID", VStr
               "5e3be7bd2c42bd0c8d72aaf3d41aaaae382fba4b8c6f6c0ba993df8322d956ca6e20c2ef67cd1e042a83d4725c3b23835ee65243c8d50a13a74679ed9afb8fdb");
             ("fcn", VStr "ping");
             ("args", VArray [VStr "string"]);
             ("attrs", VArray [VStr "username"; VStr "role"])] in
  let w1 := step w (Op this (Ping enrollID cb)) in
  let w2 := step w1 (Answer (length (members w)) getMemberError (Member m)) in
  trace w1 =
    trace w ++ [ConsoleLog [TAG; VStr "creating a new commercial paper"];
                ConsoleLog [TAG; VStr "Invoke transaction as:"; enrollID];
                GetMember c enrollID] /\
  trace w2 =
    trace w1 ++ [ConsoleLog [TAG; VStr "successfully got member:"; enrollID];
                 ConsoleLog [TAG; VStr "invoke body:"; JSON_stringify pingRequest];
                 Invoke m pingRequest].
Proof.
  intros Hnew -> He.
  destruct (CPChaincode_fields _ _ _ Hnew) as (Hc & _).
  exact (facade_invoke w this c _ enrollID _ (ping_cb cb) _ m Hc He).
Qed.

Lemma ping_request_witness :
  CPChaincode (Chain 0) (VStr "cp") =
    Ret (Instance (Chain 0) (VStr "cp") (async_queue queue_worker 1)) /\
  truthy VNull = false /\
  trace (step (step empty
      (Op (Instance (Chain 0) (VStr "cp") (async_queue queue_worker 1))
          (Ping (VStr "alice") (Caller 0))))
      (Answer 0 VNull (Member 7))) =
  trace (step empty
      (Op (Instance (Chain 0) (VStr "cp") (async_queue queue_worker 1))
          (Ping (VStr "alice") (Caller 0)))) ++
  [ConsoleLog [TAG; VStr "successfully got member:"; VStr "alice"];
   ConsoleLog [TAG; VStr "invoke body:";
               JSON_stringify
                 (VObject [("chaincodeID", VStr ping_chaincodeID); ("fcn", VStr "ping");
                           ("args", VArray [VStr "string"]);
                           ("attrs", VArray [VStr "username"; VStr "role"])])];
   Invoke 7 (VObject [("chaincodeID", VStr ping_chaincodeID); ("fcn", VStr "ping");
                      ("args", VArray [VStr "string"]);
                      ("attrs", VArray [VStr "username"; VStr "role"])])].
Proof.
  split; [reflexivity|]. split; [reflexivity|].
  exact (proj2 (ping_request (Chain 0) (VStr "cp")
                  (Instance (Chain 0) (VStr "cp") (async_queue queue_worker 1)) 0
                  empty (VStr "alice") (Caller 0) VNull 7 eq_refl eq_refl eq_refl)).
Defined.




(** ** The queue *)

Lemma started_app t1 t2 : started (t1 ++ t2) = started t1 + started t2.
Proof. unfold started. now rewrite filter_app, length_app. Qed.

Lemma called_back_app t1 t2 :
  called_back (t1 ++ t2) = called_back t1 + called_back t2.
Proof. unfold called_back. now rewrite filter_app, length_app. Qed.

(** Operations called one after the other, with no turn of the environment
    in between, all reach the chain and none has called back. *)
Lemma run_operations this c ops :
  chain this = Chain c ->
  forall w,
    started (trace (run (map (Op this) ops) w)) = started (trace w) + length ops /\
    called_back (trace (run (map (Op this) ops) w)) = called_back (trace w).
Proof.
  intros Hc. induction ops as [|op ops IH]; intros w.
  - simpl. split; [lia | reflexivity].
  - cbn [map run fold_left]. fold (run (map (Op this) ops) (step w (Op this op))).
    destruct (IH (step w (Op this op))) as [A B]. rewrite A, B.
    destruct (op_turn w this c op Hc) as (banner & helper & requestBody & E).
    rewrite E. cbn [trace]. rewrite started_app, called_back_app.
    cbn. split; lia.
Qed.


(** C1 as the specification words it fails: two operations called on one
    instance are both submitted to the SDK before either has called back,
    and they call back in the order the emitters fire, here the reverse of
    the order of the calls. *)
Lemma two_operations_in_flight :
  quiet (trace (run
      [Op (Instance (Chain 0) (VStr "cp") (async_queue queue_worker 1))
          (CreateCompany (VStr "alice") (Caller 1));
       Op (Instance (Chain 0) (VStr "cp") (async_queue queue_worker 1))
          (GetPapers (VStr "bob") (Caller 2));
       Answer 0 VNull (Member 7);
       Answer 1 VNull (Member 8)] empty))
  = [GetMember 0 (VStr "alice");
     GetMember 0 (VStr "bob");
     Invoke 7 (VObject [("chaincodeID", VStr "cp"); ("fcn", VStr "createAccount");
                        ("args", VArray [VStr "alice"])]);
     Query 8 (VObject [("chaincodeID", VStr "cp"); ("fcn", VStr "GetAllCPs");
                       ("args", VArray [VStr "bob"])])] /\
  in_flight (trace (run
      [Op (Instance (Chain 0) (VStr "cp") (async_queue queue_worker 1))
          (CreateCompany (VStr "alice") (Caller 1));
       Op (Instance (Chain 0) (VStr "cp") (async_queue queue_worker 1))
          (GetPapers (VStr "bob") (Caller 2));
       Answer 0 VNull (Member 7);
       Answer 1 VNull (Member 8)] empty)) = 2 /\
  filter is_call (trace (run
      [Op (Instance (Chain 0) (VStr "cp") (async_queue queue_worker 1))
          (CreateCompany (VStr "alice") (Caller 1));
       Op (Instance (Chain 0) (VStr "cp") (async_queue queue_worker 1))
          (GetPapers (VStr "bob") (Caller 2));
       Answer 0 VNull (Member 7);
       Answer 1 VNull (Member 8);
       Fire 1 "complete" (VObject [("result", VStr "[]")]);
       Fire 0 "completed" (VStr "tx1")] empty))
  = [Call 2 [VNull; VStr "[]"]; Call 1 [VNull; VStr "tx1"]].
Proof. repeat split. Qed.

(** * Further properties of the operations *)

(** ** The requests of the two queries *)

Lemma facade_query w this c line enrollID requestBody cb getMemberError m :
  chain this = Chain c ->
  truthy getMemberError = false ->
  let w1 := turn (console_log line ;;
                  query (chain this) enrollID requestBody cb) w in
  let w2 := step w1 (Answer (length (members w)) getMemberError (Member m)) in
  trace w1 =
    trace w ++ [ConsoleLog line;
                ConsoleLog [TAG; VStr "querying chaincode as:"; enrollID];
                GetMember c enrollID] /\
  trace w2 =
    trace w1 ++ [ConsoleLog [TAG; VStr "successfully got member:"; enrollID];
                 ConsoleLog [TAG; VStr "query body:"; JSON_stringify requestBody];
                 Query m requestBody].
Proof.
  intros Hc He w1 w2. subst w2 w1. rewrite banner_turn, Hc.
  match goal with |- context [turn _ ?w0] =>
    destruct (query_session w0 c enrollID requestBody cb getMemberError m He)
      as [E _]
  end.
  cbn [members] in E. rewrite E. rewrite query_turn. cbn [trace].
  rewrite <- app_assoc. split; reflexivity.
Qed.

(** X1: [getCompany] asks the chain for the member [enrollID] and queries
    with the constructor's chaincode ID, [fcn] GetCompany and [args] holding
    the company name alone; the enrollID is not part of the request. *)
Theorem getCompany_request chain0 id this c w enrollID company cb getMemberError m :
  CPChaincode chain0 id = Ret this ->
  chain0 = Chain c ->
  truthy getMemberError = false ->
  let getCompanyRequest :=
    VObject [("chaincodeID", id); ("fcn", VStr "GetCompany");
             ("args", VArray [company])] in
  let w1 := step w (Op this (GetCompany enrollID company cb)) in
  let w2 := step w1 (Answer (length (members w)) getMemberError (Member m)) in
  trace w1 =
    trace w ++ [ConsoleLog [TAG; VStr "getting information on company:"; company];
                ConsoleLog [TAG; VStr "querying chaincode as:"; enrollID];
                GetMember c enrollID] /\
  trace w2 =
    trace w1 ++ [ConsoleLog [TAG; VStr "successfully got member:"; enrollID];
                 ConsoleLog [TAG; VStr "query body:"; JSON_stringify getCompanyRequest];
                 Query m getCompanyRequest].
Proof.
  intros Hnew -> He.
  destruct (CPChaincode_fields _ _ _ Hnew) as (Hc & Hid & _).
  rewrite <- Hid.
  exact (facade_query w this c _ enrollID _ (getCompany_cb cb) _ m Hc He).
Qed.

Lemma getCompany_request_witness :
  CPChaincode (Chain 0) (VStr "cp") =
    Ret (Instance (Chain 0) (VStr "cp") (async_queue queue_worker 1)) /\
  truthy VNull = false /\
  trace (step (step empty
      (Op (Instance (Chain 0) (VStr "cp") (async_queue queue_worker 1))
          (GetCompany (VStr "alice") (VStr "Acme") (Caller 0))))
      (Answer 0 VNull (Member 7))) =
  trace (step empty
      (Op (Instance (Chain 0) (VStr "cp") (async_queue queue_worker 1))
          (GetCompany (VStr "alice") (VStr "Acme") (Caller 0)))) ++
  [ConsoleLog [TAG; VStr "successfully got member:"; VStr "alice"];
   ConsoleLog [TAG; VStr "query body:";
               JSON_stringify
                 (VObject [("chaincodeID", VStr "cp"); ("fcn", VStr "GetCompany");
                           ("args", VArray [VStr "Acme"])])];
   Query 7 (VObject [("chaincodeID", VStr "cp"); ("fcn", VStr "GetCompany");
                     ("args", VArray [VStr "Acme"])])].
Proof.
  split; [reflexivity|]. split; [reflexivity|].
  exact (proj2 (getCompany_request (Chain 0) (VStr "cp")
                  (Instance (Chain 0) (VStr "cp") (async_queue queue_worker 1)) 0
                  empty (VStr "alice") (VStr "Acme") (Caller 0) VNull 7
                  eq_refl eq_refl eq_refl)).
Defined.

(** X2: [getPapers] queries with the constructor's chaincode ID, [fcn]
    GetAllCPs and [args] holding the enrollID it also resolves the member
    with. *)
Theorem getPapers_request chain0 id this c w enrollID cb getMemberError m :
  CPChaincode chain0 id = Ret this ->
  chain0 = Chain c ->
  truthy getMemberError = false ->
  let getPapersRequest :=
    VObject [("chaincodeID", id); ("fcn", VStr "GetAllCPs");
             ("args", VArray [enrollID])] in
  let w1 := step w (Op this (GetPapers enrollID cb)) in
  let w2 := step w1 (Answer (length (members w)) getMemberError (Member m)) in
  trace w1 =
    trace w ++ [ConsoleLog [TAG; VStr "getting commercial papers"];
                ConsoleLog [TAG; VStr "querying chaincode as:"; enrollID];
                GetMember c enrollID] /\
  trace w2 =
    trace w1 ++ [ConsoleLog [TAG; VStr "successfully got member:"; enrollID];
                 ConsoleLog [TAG; VStr "query body:"; JSON_stringify getPapersRequest];
                 Query m getPapersRequest].
Proof.
  intros Hnew -> He.
  destruct (CPChaincode_fields _ _ _ Hnew) as (Hc & Hid & _).
  rewrite <- Hid.
  exact (facade_query w this c _ enrollID _ (getPapers_cb cb) _ m Hc He).
Qed.

Lemma getPapers_request_witness :
  CPChaincode (Chain 0) (VStr "cp") =
    Ret (Instance (Chain 0) (VStr "cp") (async_queue queue_worker 1)) /\
  truthy VNull = false /\
  trace (step (step empty
      (Op (Instance (Chain 0) (VStr "cp") (async_queue queue_worker 1))
          (GetPapers (VStr "alice") (Caller 0))))
      (Answer 0 VNull (Member 7))) =
  trace (step empty
      (Op (Instance (Chain 0) (VStr "cp") (async_queue queue_worker 1))
          (GetPapers (VStr "alice") (Caller 0)))) ++
  [ConsoleLog [TAG; VStr "successfully got member:"; VStr "alice"];
   ConsoleLog [TAG; VStr "query body:";
               JSON_stringify
                 (VObject [("chaincodeID", VStr "cp"); ("fcn", VStr "GetAllCPs");
                           ("args", VArray [VStr "alice"])])];
   Query 7 (VObject [("chaincodeID", VStr "cp"); ("fcn", VStr "GetAllCPs");
                     ("args", VArray [VStr "alice"])])].
Proof.
  split; [reflexivity|]. split; [reflexivity|].
  exact (proj2 (getPapers_request (Chain 0) (VStr "cp")
                  (Instance (Chain 0) (VStr "cp") (async_queue queue_worker 1)) 0
                  empty (VStr "alice") (Caller 0) VNull 7
                  eq_refl eq_refl eq_refl)).
Defined.

(** ** Errors on their way to the caller *)

Lemma wrapper_truthy op : truthy_callback (op_wrapper op) = true.
Proof. destruct op; reflexivity. Qed.

Lemma member_error_turn k getMemberError usr s w :
  (exists requestBody cb,
     truthy_callback cb = true /\
     (k = invoke_getMember_cb s requestBody cb \/
      k = query_getMember_cb s requestBody cb)) ->
  truthy getMemberError = true ->
  forall text, coerce s = Some text ->
  exists message cb,
    (exists requestBody,
       k = invoke_getMember_cb s requestBody cb \/
       k = query_getMember_cb s requestBody cb) /\
    turn (apply_member_cb k getMemberError usr) w =
    turn (call cb [getMemberError])
      (World (trace w ++
                [ConsoleError [TAG; VStr ("failed to get " ++ text ++ " member:")%string;
                               message]])
         (members w) (emitters w)).
Proof.
  intros (requestBody & cb & Hcb & Hk) Ht text Hs.
  destruct (failed_to_get_turn s getMemberError text w Hs Ht) as (message & _ & E).
  exists message, cb. split; [exists requestBody; exact Hk|].
  destruct Hk as [-> | ->]; unfold turn, apply_member_cb; rewrite Ht, Hcb;
    unfold bind; rewrite E; reflexivity.
Qed.

(** X3: when the chain answers [getMember] with an error, an operation
    hands that error, and nothing else, to the caller's function, once; it
    submits no request and sets up no emitter. *)
Theorem getMember_error_reaches_caller w this c op k getMemberError usr text :
  chain this = Chain c ->
  op_callback op = Caller k ->
  truthy getMemberError = true ->
  coerce (op_enrollID op) = Some text ->
  let w2 := step (step w (Op this op))
              (Answer (length (members w)) getMemberError usr) in
  calls k (trace w2) = calls k (trace w) ++ [[getMemberError]] /\
  emitters w2 = emitters w /\
  filter is_submission (trace w2) = filter is_submission (trace w).
Proof.
  intros Hc Hk Ht Hs w2.
  destruct (op_turn w this c op Hc) as (banner & helper & requestBody & E).
  assert (Hw2 : exists line1 line2,
    w2 = World (trace w ++ [ConsoleLog banner; ConsoleLog helper;
                            GetMember c (op_enrollID op);
                            ConsoleError line1; ConsoleError line2;
                            Call k [getMemberError]])
               (members w ++ [op_member_cb op requestBody]) (emitters w)).
  { subst w2. rewrite E. unfold step. cbn [members]. rewrite nth_error_last.
    match goal with |- context [turn _ ?w1] =>
      destruct (member_error_turn (op_member_cb op requestBody) getMemberError usr
                  (op_enrollID op) w1) with (text := text)
        as (message & cb & (r & Hcb) & T)
    end.
    - exists requestBody, (op_wrapper op). split; [apply wrapper_truthy|].
      unfold op_member_cb. destruct (is_query op); auto.
    - exact Ht.
    - exact Hs.
    - assert (cb = op_wrapper op) as ->.
      { unfold op_member_cb in Hcb.
        destruct (is_query op), Hcb as [H | H]; now inversion H. }
      rewrite T.
      match goal with |- context [turn _ ?w0] =>
        destruct (wrapper_error op k getMemberError w0 Hk Ht) as [line2 C];
        rewrite (turn_ret _ w0 _ C)
      end.
      cbn [trace members emitters]. rewrite <- !app_assoc. cbn [app].
      do 2 eexists. reflexivity. }
  destruct Hw2 as (line1 & line2 & ->). cbn [trace emitters].
  repeat split.
  - rewrite calls_app. simpl. now rewrite Nat.eqb_refl.
  - now rewrite filter_app, app_nil_r.
Qed.

Lemma getMember_error_reaches_caller_witness :
  calls 4 (trace (step (step empty
      (Op (Instance (Chain 0) (VStr "cp") (async_queue queue_worker 1))
          (TransferPaper (VStr "alice") (VObject [("qty", VNum (lit 10))]) (Caller 4))))
      (Answer 0 (VError "unknown user") (MemberValue VUndefined)))) =
  [[VError "unknown user"]] /\
  emitters (step (step empty
      (Op (Instance (Chain 0) (VStr "cp") (async_queue queue_worker 1))
          (TransferPaper (VStr "alice") (VObject [("qty", VNum (lit 10))]) (Caller 4))))
      (Answer 0 (VError "unknown user") (MemberValue VUndefined))) = [].
Proof.
  destruct (getMember_error_reaches_caller empty
              (Instance (Chain 0) (VStr "cp") (async_queue queue_worker 1)) 0
              (TransferPaper (VStr "alice") (VObject [("qty", VNum (lit 10))]) (Caller 4))
              4 (VError "unknown user") (MemberValue VUndefined) "alice"
              eq_refl eq_refl eq_refl eq_refl) as (A & B & _).
  split; [exact A | exact B].
Defined.

(** X4: an [error] event that carries a truthy error reaches the caller of
    any of the six operations as the only argument of one call. *)
Theorem error_event_reaches_caller w this c op k getMemberError m err :
  chain this = Chain c ->
  op_callback op = Caller k ->
  truthy getMemberError = false ->
  truthy err = true ->
  let w2 := step (step w (Op this op))
              (Answer (length (members w)) getMemberError (Member m)) in
  calls k (trace (step w2 (Fire (length (emitters w)) "error" err))) =
  calls k (trace w) ++ [[err]].
Proof.
  intros Hc Hk He Ht w2.
  destruct (op_session_calls w this c op getMemberError m k Hc He) as [Hcalls Hls].
  fold w2 in Hcalls, Hls. rewrite <- Hcalls.
  exact (op_fire_error w2 _ k op err Hls Hk Ht).
Qed.

Lemma error_event_reaches_caller_witness :
  calls 4 (trace (step (step (step empty
      (Op (Instance (Chain 0) (VStr "cp") (async_queue queue_worker 1))
          (Ping (VStr "alice") (Caller 4))))
      (Answer 0 VNull (Member 7)))
      (Fire 0 "error" (VError "boom")))) = [[VError "boom"]].
Proof.
  exact (error_event_reaches_caller empty
           (Instance (Chain 0) (VStr "cp") (async_queue queue_worker 1)) 0
           (Ping (VStr "alice") (Caller 4)) 4 VNull 7 (VError "boom")
           eq_refl eq_refl eq_refl eq_refl).
Defined.

(** ** Results that cannot be printed *)

Lemma calls_lines k t lines e :
  calls k (t ++ map ConsoleLog lines ++ [Thrown e]) = calls k t.
Proof.
  rewrite calls_app.
  assert (H : calls k (map ConsoleLog lines ++ [Thrown e]) = []).
  { induction lines as [|line lines IH]; [reflexivity | exact IH]. }
  now rewrite H, app_nil_r.
Qed.

Lemma wrapper_unprintable op args w :
  truthy (arg 0 args) = false ->
  toString (arg 1 args) = None ->
  exists lines,
    call (op_wrapper op) args w =
    (World (trace w ++ map ConsoleLog lines) (members w) (emitters w),
     Throw TypeError).
Proof.
  intros Hf Hs.
  destruct op; cbn [op_wrapper call]; rewrite Hf; unfold bind; rewrite ?Hs;
    cbn [eval]; unfold throw;
    try (exists []; cbn [map]; rewrite app_nil_r; destruct w; reflexivity).
  exists [[TAG; VStr "got papers"]]. unfold console_log, act.
  cbn [trace members emitters]. reflexivity.
Qed.

Lemma turn_throw (m : M unit) w w' e :
  m w = (w', Throw e) ->
  turn m w = World (trace w' ++ [Thrown e]) (members w') (emitters w').
Proof. unfold turn. now intros ->. Qed.

(** The turn of a listener whose wrapper cannot print what it was given. *)
Lemma unprintable_turn op args line w :
  truthy (arg 0 args) = false ->
  toString (arg 1 args) = None ->
  exists lines,
    turn (console_log line ;; call (op_wrapper op) args) w =
    World (trace w ++ map ConsoleLog lines ++ [Thrown TypeError])
      (members w) (emitters w).
Proof.
  intros Hf Hs. rewrite banner_turn.
  match goal with |- context [turn _ ?w0] =>
    destruct (wrapper_unprintable op args w0 Hf Hs) as [lines E];
    rewrite (turn_throw _ w0 _ _ E)
  end.
  exists (line :: lines). cbn [trace members emitters map].
  rewrite <- !app_assoc. reflexivity.
Qed.

(** X5: when an operation's [toString] on the result throws (the result of
    a [completed] or [submitted] event is undefined or null, or the payload
    of a query's [complete] event has no usable [result]), the turn ends in
    a TypeError and no function of any caller is called: the operation never
    calls back for that event. *)
Theorem unprintable_result_is_dropped w this c op getMemberError m event payload :
  chain this = Chain c ->
  truthy getMemberError = false ->
  (if is_query op
   then event = "complete" /\
        forall result, get payload "result" = Some result -> toString result = None
   else (event = "completed" \/ event = "submitted") /\ toString payload = None) ->
  let w2 := step (step w (Op this op))
              (Answer (length (members w)) getMemberError (Member m)) in
  let w3 := step w2 (Fire (length (emitters w)) event payload) in
  (exists lines, trace w3 = trace w2 ++ map ConsoleLog lines ++ [Thrown TypeError]) /\
  forall k, calls k (trace w3) = calls k (trace w2).
Proof.
  intros Hc He Hev w2 w3.
  destruct (op_session_calls w this c op getMemberError m 0 Hc He) as [_ Hls].
  fold w2 in Hls.
  assert (T : exists lines,
    w3 = World (trace w2 ++ map ConsoleLog lines ++ [Thrown TypeError])
           (members w2) (emitters w2)).
  { subst w3. rewrite (fire_listeners w2 _ _ _ payload Hls). unfold op_listeners.
    destruct (is_query op).
    - destruct Hev as [-> Hr].
      rewrite (proj1 (emit_query (op_wrapper op) payload w2)).
      unfold apply_listener. destruct (get payload "result") as [result|] eqn:G.
      + exact (unprintable_turn op [VNull; result] _ w2 eq_refl (Hr result eq_refl)).
      + exists [[TAG; VStr "Successfully completed query. Results:"; payload]].
        unfold turn, bind, console_log, act. cbn [eval throw trace members emitters map].
        unfold throw. cbn [trace members emitters]. now rewrite <- app_assoc.
    - destruct Hev as [Hev Hs].
      destruct (emit_invoke (op_wrapper op) payload w2) as (A & B & _).
      destruct Hev as [-> | ->]; [rewrite A | rewrite B]; unfold apply_listener;
        exact (unprintable_turn op [VNull; payload] _ w2 eq_refl Hs). }
  destruct T as [lines ->]. cbn [trace]. split.
  - exists lines. reflexivity.
  - intros k. apply calls_lines.
Qed.

Lemma unprintable_result_is_dropped_witness :
  calls 4 (trace (step (step (step empty
      (Op (Instance (Chain 0) (VStr "cp") (async_queue queue_worker 1))
          (CreateCompany (VStr "alice") (Caller 4))))
      (Answer 0 VNull (Member 7)))
      (Fire 0 "submitted" VUndefined))) =
  calls 4 (trace (step (step empty
      (Op (Instance (Chain 0) (VStr "cp") (async_queue queue_worker 1))
          (CreateCompany (VStr "alice") (Caller 4))))
      (Answer 0 VNull (Member 7)))) /\
  calls 4 (trace (step (step (step empty
      (Op (Instance (Chain 0) (VStr "cp") (async_queue queue_worker 1))
          (GetPapers (VStr "alice") (Caller 4))))
      (Answer 0 VNull (Member 7)))
      (Fire 0 "complete" (VObject [("papers", VArray [])])))) =
  calls 4 (trace (step (step empty
      (Op (Instance (Chain 0) (VStr "cp") (async_queue queue_worker 1))
          (GetPapers (VStr "alice") (Caller 4))))
      (Answer 0 VNull (Member 7)))).
Proof.
  split.
  - exact (proj2 (unprintable_result_is_dropped empty
                (Instance (Chain 0) (VStr "cp") (async_queue queue_worker 1)) 0
                (CreateCompany (VStr "alice") (Caller 4)) VNull 7 "submitted"
                VUndefined eq_refl eq_refl (conj (or_intror eq_refl) eq_refl)) 4).
  - refine (proj2 (unprintable_result_is_dropped empty
                (Instance (Chain 0) (VStr "cp") (async_queue queue_worker 1)) 0
                (GetPapers (VStr "alice") (Caller 4)) VNull 7 "complete"
                (VObject [("papers", VArray [])]) eq_refl eq_refl
                (conj eq_refl _)) 4).
    intros result H. inversion H. reflexivity.
Defined.

(** X6: an [error] event whose payload is falsy is taken for a success by
    every operation: its wrapper goes on to print a result that is not
    there, the turn ends in a TypeError, and no caller is called. *)
Theorem falsy_error_event_is_dropped w this c op getMemberError m err :
  chain this = Chain c ->
  truthy getMemberError = false ->
  truthy err = false ->
  let w2 := step (step w (Op this op))
              (Answer (length (members w)) getMemberError (Member m)) in
  let w3 := step w2 (Fire (length (emitters w)) "error" err) in
  (exists lines, trace w3 = trace w2 ++ map ConsoleLog lines ++ [Thrown TypeError]) /\
  forall k, calls k (trace w3) = calls k (trace w2).
Proof.
  intros Hc He Hf w2 w3.
  destruct (op_session_calls w this c op getMemberError m 0 Hc He) as [_ Hls].
  fold w2 in Hls.
  assert (T : exists lines,
    w3 = World (trace w2 ++ map ConsoleLog lines ++ [Thrown TypeError])
           (members w2) (emitters w2)).
  { subst w3. rewrite (fire_listeners w2 _ _ _ err Hls). unfold op_listeners.
    destruct (is_query op);
      [rewrite (proj2 (emit_query (op_wrapper op) err w2))
      |rewrite (proj2 (proj2 (emit_invoke (op_wrapper op) err w2)))];
      unfold apply_listener;
      exact (unprintable_turn op [err] _ w2 Hf eq_refl). }
  destruct T as [lines ->]. cbn [trace]. split.
  - exists lines. reflexivity.
  - intros k. apply calls_lines.
Qed.

Lemma falsy_error_event_is_dropped_witness :
  calls 4 (trace (step (step (step empty
      (Op (Instance (Chain 0) (VStr "cp") (async_queue queue_worker 1))
          (GetCompany (VStr "alice") (VStr "Acme") (Caller 4))))
      (Answer 0 VNull (Member 7)))
      (Fire 0 "error" VUndefined))) =
  calls 4 (trace (step (step empty
      (Op (Instance (Chain 0) (VStr "cp") (async_queue queue_worker 1))
          (GetCompany (VStr "alice") (VStr "Acme") (Caller 4))))
      (Answer 0 VNull (Member 7)))).
Proof.
  exact (proj2 (falsy_error_event_is_dropped empty
                  (Instance (Chain 0) (VStr "cp") (async_queue queue_worker 1)) 0
                  (GetCompany (VStr "alice") (VStr "Acme") (Caller 4)) VNull 7
                  VUndefined eq_refl eq_refl eq_refl) 4).
Defined.

(** ** Arguments that are not what they should be *)

Lemma wrapper_uncallable op v args w :
  op_callback op = CallbackValue v ->
  exists t,
    forallb is_console t = true /\
    call (op_wrapper op) args w =
    (World (trace w ++ t) (members w) (emitters w), Throw TypeError).
Proof.
  intros Hk.
  destruct op; cbn [op_callback] in Hk; subst cb; cbn [op_wrapper call];
    destruct (truthy (arg 0 args)); unfold bind;
    try destruct (toString (arg 1 args));
    cbn [eval call]; unfold throw, ret, console_log, console_error, act;
    cbn [trace members emitters];
    try destruct (toString (arg 1 args));
    cbn [eval call]; unfold throw, ret; cbn [trace members emitters];
    rewrite <- ?app_assoc;
    try (eexists; split; [|reflexivity]; reflexivity);
    exists []; rewrite app_nil_r; destruct w; split; reflexivity.
Qed.

(** X7: the guard [if (cb)] of the helpers never protects an operation.  An
    operation always hands its helper a function of its own, so with a value
    for its callback that is no function a [getMember] error is logged and
    then the call of that value throws a TypeError. *)
Theorem missing_caller_callback_faults w this c op v getMemberError usr text :
  chain this = Chain c ->
  op_callback op = CallbackValue v ->
  truthy getMemberError = true ->
  coerce (op_enrollID op) = Some text ->
  let w1 := step w (Op this op) in
  let w2 := step w1 (Answer (length (members w)) getMemberError usr) in
  exists t,
    forallb is_console t = true /\
    trace w2 = trace w1 ++ t ++ [Thrown TypeError].
Proof.
  intros Hc Hk Ht Hs w1 w2.
  destruct (op_turn w this c op Hc) as (banner & helper & requestBody & E).
  subst w2 w1. rewrite E. unfold step. cbn [members]. rewrite nth_error_last.
  match goal with |- context [turn _ ?w0] =>
    destruct (member_error_turn (op_member_cb op requestBody) getMemberError usr
                (op_enrollID op) w0) with (text := text)
      as (message & cb & (r & Hcb) & T)
  end.
  - exists requestBody, (op_wrapper op). split; [apply wrapper_truthy|].
    unfold op_member_cb. destruct (is_query op); auto.
  - exact Ht.
  - exact Hs.
  - assert (cb = op_wrapper op) as ->.
    { unfold op_member_cb in Hcb.
      destruct (is_query op), Hcb as [H | H]; now inversion H. }
    rewrite T.
    match goal with |- context [turn _ ?w0] =>
      destruct (wrapper_uncallable op v [getMemberError] w0 Hk) as (t & Hcon & C);
      rewrite (turn_throw _ w0 _ _ C)
    end.
    cbn [trace]. eexists (ConsoleError _ :: t). split; [exact Hcon|].
    rewrite <- !app_assoc. reflexivity.
Qed.

Lemma missing_caller_callback_faults_witness :
  exists t,
    forallb is_console t = true /\
    trace (step (step empty
        (Op (Instance (Chain 0) (VStr "cp") (async_queue queue_worker 1))
            (CreateCompany (VStr "alice") (CallbackValue VUndefined))))
        (Answer 0 (VError "unknown user") (MemberValue VUndefined))) =
    trace (step empty
        (Op (Instance (Chain 0) (VStr "cp") (async_queue queue_worker 1))
            (CreateCompany (VStr "alice") (CallbackValue VUndefined)))) ++
    t ++ [Thrown TypeError].
Proof.
  exact (missing_caller_callback_faults empty
           (Instance (Chain 0) (VStr "cp") (async_queue queue_worker 1)) 0
           (CreateCompany (VStr "alice") (CallbackValue VUndefined)) VUndefined
           (VError "unknown user") (MemberValue VUndefined) "alice"
           eq_refl eq_refl eq_refl eq_refl).
Defined.

(** X8: the constructor takes any truthy value for a chain.  On an instance
    whose chain is a data value every operation logs its two lines and then
    throws a TypeError at [chain.getMember], without calling anybody. *)
Theorem not_a_chain v id w op :
  truthy v = true ->
  truthy id = true ->
  exists this banner helper,
    CPChaincode (ChainValue v) id = Ret this /\
    step w (Op this op) =
    World (trace w ++ [ConsoleLog banner; ConsoleLog helper; Thrown TypeError])
      (members w) (emitters w).
Proof.
  intros Hv Hid.
  exists (Instance (ChainValue v) id (async_queue queue_worker 1)).
  unfold CPChaincode. cbn [truthy_chain]. rewrite Hv, Hid. cbn [andb negb].
  destruct op; do 2 eexists; (split; [reflexivity|]);
    unfold step, perform, createCompany, getCompany, createPaper, ping,
      transferPaper, getPapers, invoke, query, turn, bind, console_log, act;
    cbn [chain chain_getMember throw trace members emitters];
    unfold throw; cbn [trace members emitters];
    rewrite <- !app_assoc; reflexivity.
Qed.

Lemma not_a_chain_witness :
  exists banner helper,
    step empty (Op (Instance (ChainValue (VNum (lit 1))) (VStr "cp")
                      (async_queue queue_worker 1))
                  (GetPapers (VStr "alice") (Caller 0))) =
    World [ConsoleLog banner; ConsoleLog helper; Thrown TypeError] [] [].
Proof.
  destruct (not_a_chain (VNum (lit 1)) (VStr "cp") empty
              (GetPapers (VStr "alice") (Caller 0)) eq_refl eq_refl)
    as (this & banner & helper & Hnew & E).
  inversion Hnew. subst this. exists banner, helper. exact E.
Defined.

(** X9: when the chain answers without an error but with something that is
    no member, the helper logs the member as got, logs the request, and
    throws a TypeError at [usr.invoke] or [usr.query]: no emitter is set
    up, no request is submitted and nobody is called. *)
Theorem not_a_member w this c op getMemberError v :
  chain this = Chain c ->
  truthy getMemberError = false ->
  let w1 := step w (Op this op) in
  let w2 := step w1 (Answer (length (members w)) getMemberError (MemberValue v)) in
  (exists body,
     trace w2 =
     trace w1 ++
       [ConsoleLog [TAG; VStr "successfully got member:"; op_enrollID op];
        ConsoleLog body; Thrown TypeError]) /\
  emitters w2 = emitters w /\
  (forall k, calls k (trace w2) = calls k (trace w)) /\
  filter is_submission (trace w2) = filter is_submission (trace w).
Proof.
  intros Hc He w1 w2.
  destruct (op_turn w this c op Hc) as (banner & helper & requestBody & E).
  assert (T : exists body,
    w2 = World (trace w1 ++
                  [ConsoleLog [TAG; VStr "successfully got member:"; op_enrollID op];
                   ConsoleLog body; Thrown TypeError])
           (members w1) (emitters w)).
  { subst w2 w1. rewrite E. unfold step. cbn [members]. rewrite nth_error_last.
    unfold op_member_cb.
    destruct (is_query op); unfold turn, apply_member_cb; rewrite He;
      unfold bind, console_log, act, usr_invoke, usr_query, throw;
      cbn [trace members emitters]; eexists; rewrite <- !app_assoc; reflexivity. }
  destruct T as [body ->]. subst w1. rewrite E. cbn [trace emitters].
  split; [exists body; reflexivity|]. split; [reflexivity|]. split.
  - intros k. rewrite !calls_app. simpl. now rewrite !app_nil_r.
  - rewrite !filter_app. simpl. now rewrite !app_nil_r.
Qed.

Lemma not_a_member_witness :
  emitters (step (step empty
      (Op (Instance (Chain 0) (VStr "cp") (async_queue queue_worker 1))
          (CreatePaper (VStr "alice") (VObject []) (Caller 4))))
      (Answer 0 VNull (MemberValue VUndefined))) = [] /\
  calls 4 (trace (step (step empty
      (Op (Instance (Chain 0) (VStr "cp") (async_queue queue_worker 1))
          (CreatePaper (VStr "alice") (VObject []) (Caller 4))))
      (Answer 0 VNull (MemberValue VUndefined)))) = [].
Proof.
  destruct (not_a_member empty
              (Instance (Chain 0) (VStr "cp") (async_queue queue_worker 1)) 0
              (CreatePaper (VStr "alice") (VObject []) (Caller 4)) VNull VUndefined
              eq_refl eq_refl) as (_ & A & B & _).
  split; [exact A | exact (B 4)].
Defined.

(** ** What a call can do *)


Lemma within_throw cb e : calls_within cb (throw e).
Proof.
  intros w. exists [], (Throw e). unfold throw. rewrite app_nil_r.
  destruct w. repeat split; simpl; auto.
Qed.

Lemma within_ret cb : calls_within cb (ret tt).
Proof.
  intros w. exists [], (Ret tt). unfold ret. rewrite app_nil_r.
  destruct w. repeat split; simpl; auto.
Qed.

Lemma within_console cb a (m : M unit) :
  is_console a = true -> calls_within cb m -> calls_within cb (act a ;; m).
Proof.
  intros Ha Hm w.
  destruct (Hm (World (trace w ++ [a]) (members w) (emitters w)))
    as (t & o & E & A & B).
  exists (a :: t), o. unfold bind, act. rewrite E. cbn [trace members emitters].
  rewrite <- app_assoc. split; [reflexivity|].
  destruct a; try discriminate Ha; simpl; auto.
Qed.

Lemma within_eval cb {A} (o : option A) (f : A -> M unit) :
  (forall a, calls_within cb (f a)) -> calls_within cb (x <- eval o ;; f x).
Proof.
  intros Hf. destruct o as [a|].
  - intros w. exact (Hf a w).
  - exact (within_throw cb TypeError).
Qed.

Lemma call_within cb : forall args, calls_within cb (call cb args).
Proof.
  induction cb as [k | v | cb IH | cb IH | cb IH | cb IH | cb IH | cb IH];
    intros args; cbn [call caller_of].
  - intros w. exists [Call k args], (Ret tt). unfold act. split; [reflexivity|].
    split; [|simpl; auto].
    intros k' Hk. simpl. destruct (Nat.eqb_spec k k'); [subst; now elim Hk | reflexivity].
  - apply within_throw.
  - destruct (truthy (arg 0 args)).
    + apply within_console; [reflexivity | apply IH].
    + apply within_eval. intros s. apply within_console; [reflexivity | apply IH].
  - destruct (truthy (arg 0 args)).
    + apply within_console; [reflexivity | apply IH].
    + apply within_eval. intros s. apply within_console; [reflexivity|].
      apply within_eval. intros s'. apply IH.
  - destruct (truthy (arg 0 args)).
    + apply within_console; [reflexivity | apply IH].
    + apply within_eval. intros s. apply within_console; [reflexivity | apply IH].
  - destruct (truthy (arg 0 args)).
    + apply within_console; [reflexivity | apply IH].
    + apply within_eval. intros s. apply within_console; [reflexivity | apply IH].
  - destruct (truthy (arg 0 args)).
    + apply within_console; [reflexivity | apply IH].
    + apply within_eval. intros s. apply within_console; [reflexivity | apply IH].
  - destruct (truthy (arg 0 args)).
    + apply within_console; [reflexivity | apply IH].
    + apply within_console; [reflexivity|].
      apply within_eval. intros s. apply IH.
Qed.

Lemma listener_within l payload :
  calls_within (listener_callback l) (apply_listener l payload).
Proof.
  destruct l; cbn [apply_listener listener_callback];
    (apply within_console; [reflexivity|]);
    try apply call_within.
  apply within_eval. intros result. apply call_within.
Qed.

Lemma turn_within cb m w :
  calls_within cb m ->
  exists t,
    turn m w = World (trace w ++ t) (members w) (emitters w) /\
    (forall k, caller_of cb <> Some k -> calls k t = []) /\
    length (filter is_call t) <= 1.
Proof.
  intros H. destruct (H w) as (t & o & E & A & B). unfold turn. rewrite E.
  destruct o as [[]|e].
  - exists t. auto.
  - exists (t ++ [Thrown e]). cbn [trace members emitters].
    rewrite <- app_assoc. split; [reflexivity|]. split.
    + intros k Hk. rewrite calls_app, (A k Hk). reflexivity.
    + rewrite filter_app, length_app. simpl. lia.
Qed.

(** An emitter set up by a helper runs one listener for an event it knows
    and none for any other. *)
Lemma emit_one ls cb event payload w :
  ls = invoke_listeners cb \/ ls = query_listeners cb ->
  turn (emit ls event payload) w = w \/
  exists l, listener_callback l = cb /\
            turn (emit ls event payload) w = turn (apply_listener l payload) w.
Proof.
  assert (Idle : turn (ret tt) w = w) by (destruct w; reflexivity).
  intros [-> | ->].
  - destruct (String.eqb_spec "completed" event) as [<- | N1].
    { right. exists (invoke_completed cb). split; [reflexivity|].
      apply (emit_invoke cb payload w). }
    destruct (String.eqb_spec "submitted" event) as [<- | N2].
    { right. exists (invoke_submitted cb). split; [reflexivity|].
      apply (emit_invoke cb payload w). }
    destruct (String.eqb_spec "error" event) as [<- | N3].
    { right. exists (invoke_error cb). split; [reflexivity|].
      apply (emit_invoke cb payload w). }
    left. unfold invoke_listeners. cbn [emit].
    apply String.eqb_neq in N1, N2, N3. rewrite N1, N2, N3. exact Idle.
  - destruct (String.eqb_spec "complete" event) as [<- | N1].
    { right. exists (query_complete cb). split; [reflexivity|].
      apply (emit_query cb payload w). }
    destruct (String.eqb_spec "error" event) as [<- | N2].
    { right. exists (query_error cb). split; [reflexivity|].
      apply (emit_query cb payload w). }
    left. unfold query_listeners. cbn [emit].
    apply String.eqb_neq in N1, N2. rewrite N1, N2. exact Idle.
Qed.

Lemma wrapper_caller op : caller_of (op_wrapper op) = caller_of (op_callback op).
Proof. destruct op; reflexivity. Qed.

(** X10: whatever event fires on the emitter of an operation, with whatever
    payload, the turn calls at most one function, and never a function other
    than the one the operation was given; it leaves the listeners and the
    pending [getMember] callbacks as they were. *)
Theorem event_calls_only_its_caller w this c op getMemberError m event payload :
  chain this = Chain c ->
  truthy getMemberError = false ->
  let w2 := step (step w (Op this op))
              (Answer (length (members w)) getMemberError (Member m)) in
  let w3 := step w2 (Fire (length (emitters w)) event payload) in
  (forall k, caller_of (op_callback op) <> Some k ->
             calls k (trace w3) = calls k (trace w2)) /\
  called_back (trace w3) <= called_back (trace w2) + 1 /\
  emitters w3 = emitters w2 /\
  members w3 = members w2.
Proof.
  intros Hc He w2 w3.
  destruct (op_session_calls w this c op getMemberError m 0 Hc He) as [_ Hls].
  fold w2 in Hls.
  assert (T : exists t,
    w3 = World (trace w2 ++ t) (members w2) (emitters w2) /\
    (forall k, caller_of (op_callback op) <> Some k -> calls k t = []) /\
    length (filter is_call t) <= 1).
  { subst w3. rewrite (fire_listeners w2 _ _ _ payload Hls).
    destruct (emit_one (op_listeners op) (op_wrapper op) event payload w2)
      as [E | (l & Hl & E)].
    - unfold op_listeners. destruct (is_query op); auto.
    - rewrite E. exists []. rewrite app_nil_r. destruct w2. simpl. auto.
    - rewrite E. rewrite <- wrapper_caller, <- Hl.
      apply turn_within, listener_within. }
  destruct T as (t & -> & A & B). cbn [trace members emitters].
  repeat split.
  - intros k Hk. now rewrite calls_app, (A k Hk), app_nil_r.
  - rewrite called_back_app. unfold called_back at 2. lia.
Qed.

Lemma event_calls_only_its_caller_witness :
  calls 5 (trace (step (step (step empty
      (Op (Instance (Chain 0) (VStr "cp") (async_queue queue_worker 1))
          (GetCompany (VStr "alice") (VStr "Acme") (Caller 4))))
      (Answer 0 VNull (Member 7)))
      (Fire 0 "complete" (VObject [("result", VStr "{}")])))) =
  calls 5 (trace (step (step empty
      (Op (Instance (Chain 0) (VStr "cp") (async_queue queue_worker 1))
          (GetCompany (VStr "alice") (VStr "Acme") (Caller 4))))
      (Answer 0 VNull (Member 7)))).
Proof.
  refine (proj1 (event_calls_only_its_caller empty
                   (Instance (Chain 0) (VStr "cp") (async_queue queue_worker 1)) 0
                   (GetCompany (VStr "alice") (VStr "Acme") (Caller 4)) VNull 7
                   "complete" (VObject [("result", VStr "{}")]) eq_refl eq_refl) 5 _).
  discriminate.
Defined.

(** ** Any sequence of events *)

Lemma fire_invoke_any w e k event payload :
  nth e (emitters w) [] = invoke_listeners (Caller k) ->
  exists t,
    step w (Fire e event payload) =
      World (trace w ++ t) (members w) (emitters w) /\
    calls k t = invoke_calls event payload.
Proof.
  intros H. unfold invoke_calls.
  destruct (fire_invoke_caller w e k payload H) as (A & B & C).
  destruct (String.eqb_spec "completed" event) as [<- | N1].
  { eexists. split; [exact A|]. simpl. now rewrite Nat.eqb_refl. }
  destruct (String.eqb_spec "submitted" event) as [<- | N2].
  { eexists. split; [exact B|]. simpl. now rewrite Nat.eqb_refl. }
  destruct (String.eqb_spec "error" event) as [<- | N3].
  { eexists. split; [exact C|]. simpl. now rewrite Nat.eqb_refl. }
  exists []. split; [|reflexivity].
  unfold step. rewrite H. unfold invoke_listeners. cbn [emit].
  apply String.eqb_neq in N1, N2, N3. rewrite N1, N2, N3.
  rewrite app_nil_r. destruct w. reflexivity.
Qed.

Lemma fire_all_calls e k events :
  forall w,
    nth e (emitters w) [] = invoke_listeners (Caller k) ->
    calls k (trace (run (fire_all e events) w)) =
    calls k (trace w) ++
    flat_map (fun ev => invoke_calls (fst ev) (snd ev)) events.
Proof.
  induction events as [|[event payload] events IH]; intros w H.
  - simpl. now rewrite app_nil_r.
  - cbn [fire_all map run fold_left flat_map fst snd].
    fold (fire_all e events). fold (run (fire_all e events)).
    destruct (fire_invoke_any w e k event payload H) as (t & E & C).
    change (fold_left step (fire_all e events) (step w (Fire e event payload)))
      with (run (fire_all e events) (step w (Fire e event payload))).
    rewrite E. rewrite IH by exact H. cbn [trace].
    now rewrite calls_app, C, app_assoc.
Qed.

(** X11: for any sequence of events fired on the emitter of an invoke, the
    callback is called once for every [completed], [submitted] and [error]
    among them, in the order they fire, and not at all for any other event:
    the helper keeps no record of having called back. *)
Theorem invoke_calls_back_per_event w c enrollID requestBody k getMemberError m
    events :
  truthy getMemberError = false ->
  let w1 := turn (invoke (Chain c) enrollID requestBody (Caller k)) w in
  let w2 := step w1 (Answer (length (members w)) getMemberError (Member m)) in
  calls k (trace (run (fire_all (length (emitters w)) events) w2)) =
  calls k (trace w2) ++ flat_map (fun ev => invoke_calls (fst ev) (snd ev)) events.
Proof.
  intros He w1 w2.
  destruct (invoke_session w c enrollID requestBody (Caller k) _ m He) as [E _].
  fold w1 in E. fold w2 in E.
  apply fire_all_calls. rewrite E. cbn [emitters]. apply nth_last.
Qed.

Lemma invoke_calls_back_per_event_witness :
  calls 3 (trace (run (fire_all 0 [("submitted", VStr "tx1");
                                   ("progress", VNum (lit 50));
                                   ("completed", VStr "done");
                                   ("completed", VStr "done")])
                   (step (turn (invoke (Chain 0) (VStr "alice") (VStr "body")
                                  (Caller 3)) empty)
                      (Answer 0 VNull (Member 7))))) =
  [[VNull; VStr "tx1"]; [VNull; VStr "done"]; [VNull; VStr "done"]].
Proof.
  exact (invoke_calls_back_per_event empty 0 (VStr "alice") (VStr "body") 3 VNull 7
           [("submitted", VStr "tx1"); ("progress", VNum (lit 50));
            ("completed", VStr "done"); ("completed", VStr "done")] eq_refl).
Defined.

(** ** The chain answering more than once *)

(** X12: the function handed to [getMember] keeps no record of having run.
    If the chain answers the same call twice with a member, the operation
    submits its request twice, each time on an emitter of its own carrying
    the same listeners. *)
Theorem answered_twice_submits_twice w this c op err1 err2 m1 m2 :
  chain this = Chain c ->
  truthy err1 = false ->
  truthy err2 = false ->
  let n := length (members w) in
  let w3 := run [Op this op; Answer n err1 (Member m1); Answer n err2 (Member m2)] w in
  exists requestBody,
    filter is_submission (trace w3) =
      filter is_submission (trace w) ++
      (if is_query op
       then [Query m1 requestBody; Query m2 requestBody]
       else [Invoke m1 requestBody; Invoke m2 requestBody]) /\
    emitters w3 = emitters w ++ [op_listeners op; op_listeners op].
Proof.
  intros Hc H1 H2 n w3.
  destruct (op_session w this c op err1 m1 Hc H1)
    as (banner & helper & body & requestBody & E).
  exists requestBody. subst w3 n. unfold run. cbn [fold_left]. rewrite E.
  match goal with |- context [step ?w2 ?i] =>
    assert (T : exists body2,
      step w2 i =
      World (trace w2 ++
               [ConsoleLog [TAG; VStr "successfully got member:"; op_enrollID op];
                ConsoleLog body2;
                if is_query op then Query m2 requestBody else Invoke m2 requestBody])
            (members w2) (emitters w2 ++ [op_listeners op]))
  end.
  { unfold step. cbn [members]. rewrite nth_error_last.
    unfold op_member_cb, op_listeners.
    destruct (is_query op);
      [rewrite query_member_turn by exact H2
      |rewrite invoke_member_turn by exact H2]; eexists; reflexivity. }
  destruct T as [body2 ->]. cbn [trace emitters]. split.
  - rewrite !filter_app. destruct (is_query op); simpl; now rewrite <- app_assoc.
  - now rewrite <- app_assoc.
Qed.

Lemma answered_twice_submits_twice_witness :
  exists requestBody,
    filter is_submission (trace (run
      [Op (Instance (Chain 0) (VStr "cp") (async_queue queue_worker 1))
          (CreateCompany (VStr "alice") (Caller 4));
       Answer 0 VNull (Member 7); Answer 0 VNull (Member 8)] empty)) =
    [Invoke 7 requestBody; Invoke 8 requestBody] /\
    emitters (run
      [Op (Instance (Chain 0) (VStr "cp") (async_queue queue_worker 1))
          (CreateCompany (VStr "alice") (Caller 4));
       Answer 0 VNull (Member 7); Answer 0 VNull (Member 8)] empty) =
    [invoke_listeners (createCompany_cb (Caller 4));
     invoke_listeners (createCompany_cb (Caller 4))].
Proof.
  exact (answered_twice_submits_twice empty
           (Instance (Chain 0) (VStr "cp") (async_queue queue_worker 1)) 0
           (CreateCompany (VStr "alice") (Caller 4)) VNull VNull 7 8
           eq_refl eq_refl eq_refl).
Defined.

(** ** Listeners stay *)


Lemma trace_only_ret {A} (a : A) : trace_only (ret a).
Proof.
  intros w. exists [], (Ret a). unfold ret. rewrite app_nil_r. now destruct w.
Qed.

Lemma trace_only_throw {A} e : trace_only (@throw A e).
Proof.
  intros w. exists [], (Throw e). unfold throw. rewrite app_nil_r. now destruct w.
Qed.

Lemma trace_only_act a : trace_only (act a).
Proof. intros w. exists [a], (Ret tt). reflexivity. Qed.

Lemma trace_only_eval {A} (o : option A) : trace_only (eval o).
Proof. destruct o; [apply trace_only_ret | apply trace_only_throw]. Qed.

Lemma trace_only_bind {A B} (m : M A) (f : A -> M B) :
  trace_only m -> (forall a, trace_only (f a)) -> trace_only (bind m f).
Proof.
  intros Hm Hf w. destruct (Hm w) as (t & o & E). unfold bind. rewrite E.
  destruct o as [a|e].
  - destruct (Hf a (World (trace w ++ t) (members w) (emitters w)))
      as (t' & o' & E').
    rewrite E'. cbn [trace members emitters]. rewrite <- app_assoc.
    now exists (t ++ t'), o'.
  - now exists t, (Throw e).
Qed.

Lemma trace_only_throw_bind {A B} e (f : A -> M B) : trace_only (bind (throw e) f).
Proof.
  intros w. exists [], (Throw e). unfold bind, throw. rewrite app_nil_r.
  now destruct w.
Qed.

Lemma trace_only_call cb args : trace_only (call cb args).
Proof.
  intros w. destruct (call_within cb args w) as (t & o & E & _).
  now exists t, o.
Qed.

Lemma trace_only_listener l payload : trace_only (apply_listener l payload).
Proof.
  intros w. destruct (listener_within l payload w) as (t & o & E & _).
  now exists t, o.
Qed.

Lemma trace_only_emit ls event payload : trace_only (emit ls event payload).
Proof.
  induction ls as [|[name l] ls IH]; cbn [emit].
  - apply trace_only_ret.
  - apply trace_only_bind; [|intros _; exact IH].
    destruct (String.eqb name event);
      [apply trace_only_listener | apply trace_only_ret].
Qed.

Lemma trace_only_failed_to_get enrollID getMemberError :
  trace_only (failed_to_get enrollID getMemberError).
Proof.
  unfold failed_to_get.
  apply trace_only_bind; [apply trace_only_eval | intros s].
  apply trace_only_bind; [apply trace_only_eval | intros message].
  apply trace_only_act.
Qed.


Lemma extends_refl w : extends w w.
Proof. exists [], [], []. rewrite !app_nil_r. now destruct w. Qed.

Lemma extends_emitter w t es :
  extends w (World (trace w ++ t) (members w) (emitters w ++ es)).
Proof. exists t, [], es. now rewrite app_nil_r. Qed.

Lemma extends_member w t ms :
  extends w (World (trace w ++ t) (members w ++ ms) (emitters w)).
Proof. exists t, ms, []. now rewrite app_nil_r. Qed.

Lemma extends_trace w t :
  extends w (World (trace w ++ t) (members w) (emitters w)).
Proof. exists t, [], []. now rewrite !app_nil_r. Qed.

Lemma extends_trans w1 w2 w3 : extends w1 w2 -> extends w2 w3 -> extends w1 w3.
Proof.
  intros (t & ms & es & ->) (t' & ms' & es' & ->). cbn [trace members emitters].
  exists (t ++ t'), (ms ++ ms'), (es ++ es'). now rewrite !app_assoc.
Qed.

Lemma turn_trace_only (m : M unit) w : trace_only m -> extends w (turn m w).
Proof.
  intros H. destruct (H w) as (t & o & E). unfold turn. rewrite E.
  destruct o as [[]|e].
  - exists t, [], []. now rewrite !app_nil_r.
  - exists (t ++ [Thrown e]), [], []. cbn [trace members emitters].
    now rewrite !app_nil_r, app_assoc.
Qed.

Lemma op_turn_no_chain w this v op :
  chain this = ChainValue v ->
  exists banner helper,
    step w (Op this op) =
    World (trace w ++ [ConsoleLog banner; ConsoleLog helper; Thrown TypeError])
      (members w) (emitters w).
Proof.
  intros Hc.
  destruct op; do 2 eexists;
    unfold step, perform, createCompany, getCompany, createPaper, ping,
      transferPaper, getPapers, invoke, query; rewrite Hc;
    unfold turn, bind, console_log, act;
    cbn [chain_getMember throw trace members emitters];
    unfold throw; cbn [trace members emitters];
    rewrite <- !app_assoc; reflexivity.
Qed.

Lemma member_cb_extends k getMemberError usr w :
  extends w (turn (apply_member_cb k getMemberError usr) w).
Proof.
  destruct (truthy getMemberError) eqn:Ht.
  - apply turn_trace_only.
    destruct k; cbn [apply_member_cb]; rewrite Ht;
      (apply trace_only_bind; [apply trace_only_failed_to_get | intros _]);
      destruct (truthy_callback cb);
      [apply trace_only_call | apply trace_only_ret
      |apply trace_only_call | apply trace_only_ret].
  - destruct usr as [m | v].
    + destruct k.
      * rewrite invoke_member_turn by exact Ht. apply extends_emitter.
      * rewrite query_member_turn by exact Ht. apply extends_emitter.
    + apply turn_trace_only.
      destruct k; cbn [apply_member_cb]; rewrite Ht;
        (apply trace_only_bind; [apply trace_only_act | intros _]);
        (apply trace_only_bind; [apply trace_only_act | intros _]);
        apply trace_only_throw_bind.
Qed.

Lemma step_extends w i : extends w (step w i).
Proof.
  destruct i as [this op | n getMemberError usr | e event payload | this t callback];
    cbn [step].
  - destruct (chain this) as [c | v] eqn:Hc.
    + destruct (op_turn w this c op Hc) as (banner & helper & requestBody & E).
      change (turn (perform this op) w) with (step w (Op this op)). rewrite E.
      apply extends_member.
    + destruct (op_turn_no_chain w this v op Hc) as (banner & helper & E).
      change (turn (perform this op) w) with (step w (Op this op)). rewrite E.
      apply extends_trace.
  - destruct (nth_error (members w) n) as [k|].
    + apply member_cb_extends.
    + apply extends_refl.
  - apply turn_trace_only, trace_only_emit.
  - apply turn_trace_only.
    destruct (worker (queue this)), t; cbn [apply_worker];
      [apply trace_only_act | apply trace_only_throw].
Qed.

Lemma run_extends inputs : forall w, extends w (run inputs w).
Proof.
  induction inputs as [|i inputs IH]; intros w.
  - apply extends_refl.
  - cbn [run fold_left]. fold (run inputs (step w i)).
    exact (extends_trans _ _ _ (step_extends w i) (IH (step w i))).
Qed.

(** X13: listeners stay as they are.  Whatever happens after an emitter was
    set up (further operations, answers of the chain, events on this or any
    other emitter, exceptions), the module neither removes a listener from
    it nor adds one to it; and a callback handed to [getMember] stays with
    the chain. *)
Theorem listeners_stay inputs w e ls n k :
  nth_error (emitters w) e = Some ls ->
  nth_error (members w) n = Some k ->
  nth_error (emitters (run inputs w)) e = Some ls /\
  nth_error (members (run inputs w)) n = Some k.
Proof.
  intros He Hn. destruct (run_extends inputs w) as (t & ms & es & ->).
  cbn [emitters members]. split.
  - rewrite nth_error_app1; [exact He|]. apply nth_error_Some. congruence.
  - rewrite nth_error_app1; [exact Hn|]. apply nth_error_Some. congruence.
Qed.

Lemma listeners_stay_witness :
  nth_error (emitters (run
      [Fire 0 "error" (VError "boom");
       Op (Instance (Chain 0) (VStr "cp") (async_queue queue_worker 1))
          (GetPapers (VStr "bob") (Caller 5));
       Answer 1 VNull (Member 8);
       Fire 0 "completed" VUndefined;
       Fire 1 "complete" VNull]
      (run [Op (Instance (Chain 0) (VStr "cp") (async_queue queue_worker 1))
               (CreateCompany (VStr "alice") (Caller 4));
            Answer 0 VNull (Member 7)] empty))) 0 =
  Some (invoke_listeners (createCompany_cb (Caller 4))).
Proof.
  exact (proj1 (listeners_stay
           [Fire 0 "error" (VError "boom");
            Op (Instance (Chain 0) (VStr "cp") (async_queue queue_worker 1))
               (GetPapers (VStr "bob") (Caller 5));
            Answer 1 VNull (Member 8);
            Fire 0 "completed" VUndefined;
            Fire 1 "complete" VNull]
           (run [Op (Instance (Chain 0) (VStr "cp") (async_queue queue_worker 1))
                    (CreateCompany (VStr "alice") (Caller 4));
                 Answer 0 VNull (Member 7)] empty)
           0 (invoke_listeners (createCompany_cb (Caller 4))) 0
           (invoke_getMember_cb (VStr "alice")
              (request (VStr "cp") "createAccount" [VStr "alice"])
              (createCompany_cb (Caller 4)))
           eq_refl eq_refl)).
Defined.

(** * What reaches the caller, and when *)

(** ** Events that hand the caller nothing *)

Lemma op_fire_unprintable w e op event payload :
  nth e (emitters w) [] = op_listeners op ->
  (if is_query op
   then event = "complete" /\
        forall result, get payload "result" = Some result -> toString result = None
   else (event = "completed" \/ event = "submitted") /\ toString payload = None) ->
  exists lines,
    step w (Fire e event payload) =
    World (trace w ++ map ConsoleLog lines ++ [Thrown TypeError])
      (members w) (emitters w).
Proof.
  intros Hls Hev. rewrite (fire_listeners w _ _ _ payload Hls). unfold op_listeners.
  destruct (is_query op).
  - destruct Hev as [-> Hr].
    rewrite (proj1 (emit_query (op_wrapper op) payload w)).
    unfold apply_listener. destruct (get payload "result") as [result|] eqn:G.
    + exact (unprintable_turn op [VNull; result] _ w eq_refl (Hr result eq_refl)).
    + exists [[TAG; VStr "Successfully completed query. Results:"; payload]].
      unfold turn, bind, console_log, act. cbn [eval throw trace members emitters map].
      unfold throw. cbn [trace members emitters]. now rewrite <- app_assoc.
  - destruct Hev as [Hev Hs].
    destruct (emit_invoke (op_wrapper op) payload w) as (A & B & _).
    destruct Hev as [-> | ->]; [rewrite A | rewrite B]; unfold apply_listener;
      exact (unprintable_turn op [VNull; payload] _ w eq_refl Hs).
Qed.

Lemma op_fire_falsy w e op err :
  nth e (emitters w) [] = op_listeners op ->
  truthy err = false ->
  exists lines,
    step w (Fire e "error" err) =
    World (trace w ++ map ConsoleLog lines ++ [Thrown TypeError])
      (members w) (emitters w).
Proof.
  intros Hls Hf. rewrite (fire_listeners w _ _ _ err Hls). unfold op_listeners.
  destruct (is_query op);
    [rewrite (proj2 (emit_query (op_wrapper op) err w))
    |rewrite (proj2 (proj2 (emit_invoke (op_wrapper op) err w)))];
    unfold apply_listener;
    exact (unprintable_turn op [err] _ w Hf eq_refl).
Qed.

(** C3, as the code has it.  The two query operations hand the caller
    [payload.result.toString()], a string, when the [result] field of the
    [complete] payload can be printed.  The four invoke operations hand the
    caller the result of the [completed] or [submitted] event as it came, a
    byte payload included, when [result.toString()], which they call for the
    line they log, does not throw.  When [toString] cannot be called (on
    undefined, on null, on an object whose [toString] is data) the wrapper
    throws and the caller is handed nothing. *)
Theorem results_handed_to_caller w this c op k getMemberError m payload :
  chain this = Chain c ->
  op_callback op = Caller k ->
  truthy getMemberError = false ->
  let w2 := step (step w (Op this op))
              (Answer (length (members w)) getMemberError (Member m)) in
  let delivered event :=
    calls k (trace (step w2 (Fire (length (emitters w)) event payload))) in
  (is_query op = true ->
   (forall result s,
      get payload "result" = Some result -> toString result = Some s ->
      delivered "complete" = calls k (trace w) ++ [[VNull; VStr s]]) /\
   ((forall result, get payload "result" = Some result -> toString result = None) ->
    delivered "complete" = calls k (trace w))) /\
  (is_query op = false ->
   forall event, event = "completed" \/ event = "submitted" ->
   (forall s, toString payload = Some s ->
              delivered event = calls k (trace w) ++ [[VNull; payload]]) /\
   (toString payload = None -> delivered event = calls k (trace w))).
Proof.
  intros Hc Hk He w2 delivered.
  destruct (op_session_calls w this c op getMemberError m k Hc He) as [Hcalls Hls].
  fold w2 in Hcalls, Hls. subst delivered. cbv beta. rewrite <- Hcalls.
  split; intros Hq.
  - split.
    + intros result s Hr Hs.
      exact (op_fire_complete w2 _ k op payload Hls Hk result s Hq Hr Hs).
    + intros Hnone.
      destruct (op_fire_unprintable w2 _ op "complete" payload Hls) as [lines E].
      { rewrite Hq. auto. }
      rewrite E. cbn [trace]. apply calls_lines.
  - intros event Hev. split.
    + intros s Hs.
      exact (op_fire_completed w2 _ k op payload Hls Hk event s Hq Hev Hs).
    + intros Hnone.
      destruct (op_fire_unprintable w2 _ op event payload Hls) as [lines E].
      { rewrite Hq. auto. }
      rewrite E. cbn [trace]. apply calls_lines.
Qed.

Lemma results_handed_to_caller_witness :
  calls 0 (trace (step (step (step empty
      (Op (Instance (Chain 0) (VStr "cp") (async_queue queue_worker 1))
          (GetCompany (VStr "alice") (VStr "Acme") (Caller 0))))
      (Answer 0 VNull (Member 7)))
      (Fire 0 "complete" (VObject [("result", VBuffer [xff; x41; xc3])]))))
  = [[VNull; VStr (Buffer_toString [xff; x41; xc3])]] /\
  calls 0 (trace (step (step (step empty
      (Op (Instance (Chain 0) (VStr "cp") (async_queue queue_worker 1))
          (CreateCompany (VStr "alice") (Caller 0))))
      (Answer 0 VNull (Member 7)))
      (Fire 0 "completed" (VBuffer [x6f; x6b]))))
  = [[VNull; VBuffer [x6f; x6b]]] /\
  calls 0 (trace (step (step (step empty
      (Op (Instance (Chain 0) (VStr "cp") (async_queue queue_worker 1))
          (CreateCompany (VStr "alice") (Caller 0))))
      (Answer 0 VNull (Member 7)))
      (Fire 0 "submitted" VUndefined)))
  = [].
Proof.
  split; [|split].
  - exact (proj1 (proj1 (results_handed_to_caller empty
                    (Instance (Chain 0) (VStr "cp") (async_queue queue_worker 1)) 0
                    (GetCompany (VStr "alice") (VStr "Acme") (Caller 0)) 0 VNull 7
                    (VObject [("result", VBuffer [xff; x41; xc3])])
                    eq_refl eq_refl eq_refl) eq_refl)
             (VBuffer [xff; x41; xc3]) _ eq_refl eq_refl).
  - exact (proj1 (proj2 (results_handed_to_caller empty
                    (Instance (Chain 0) (VStr "cp") (async_queue queue_worker 1)) 0
                    (CreateCompany (VStr "alice") (Caller 0)) 0 VNull 7
                    (VBuffer [x6f; x6b]) eq_refl eq_refl eq_refl)
             eq_refl "completed" (or_introl eq_refl)) "ok" eq_refl).
  - exact (proj2 (proj2 (results_handed_to_caller empty
                    (Instance (Chain 0) (VStr "cp") (async_queue queue_worker 1)) 0
                    (CreateCompany (VStr "alice") (Caller 0)) 0 VNull 7
                    VUndefined eq_refl eq_refl eq_refl)
             eq_refl "submitted" (or_intror eq_refl)) eq_refl).
Defined.

(** C9 as the specification words it fails: a [complete] event whose
    payload carries a null [result] ends in a TypeError, and [getCompany]
    never calls the caller back. *)
Lemma complete_without_result :
  calls 0 (trace (run
      [Op (Instance (Chain 0) (VStr "cp") (async_queue queue_worker 1))
          (GetCompany (VStr "alice") (VStr "Acme") (Caller 0));
       Answer 0 VNull (Member 7);
       Fire 0 "complete" (VObject [("result", VNull)])] empty)) = [] /\
  last (trace (run
      [Op (Instance (Chain 0) (VStr "cp") (async_queue queue_worker 1))
          (GetCompany (VStr "alice") (VStr "Acme") (Caller 0));
       Answer 0 VNull (Member 7);
       Fire 0 "complete" (VObject [("result", VNull)])] empty))
    (ConsoleLog []) = Thrown TypeError.
Proof. split; reflexivity. Qed.

(** C9, as the code has it.  On [complete] the query helper reads the
    [result] field of the event payload and passes it to its callback with a
    null error; a payload that is undefined or null has no field to read and
    the helper throws.  On [error] it passes the error.  Through
    [getCompany] and [getPapers] the caller receives the field as a string
    when the field can be printed, and the error when the error is truthy;
    when the field cannot be printed, or the error is falsy, the wrapper
    throws and the caller is not called. *)
Theorem query_complete_unwraps w this c op k enrollID requestBody
    getMemberError m payload :
  chain this = Chain c ->
  is_query op = true ->
  op_callback op = Caller k ->
  truthy getMemberError = false ->
  let e := length (emitters w) in
  let answer := Answer (length (members w)) getMemberError (Member m) in
  let b2 := step (turn (query (Chain c) enrollID requestBody (Caller k)) w) answer in
  let w2 := step (step w (Op this op)) answer in
  (forall result,
     get payload "result" = Some result ->
     trace (step b2 (Fire e "complete" payload)) =
       trace b2 ++
         [ConsoleLog [TAG; VStr "Successfully completed query. Results:"; payload];
          Call k [VNull; result]]) /\
  (get payload "result" = None ->
   trace (step b2 (Fire e "complete" payload)) =
     trace b2 ++
       [ConsoleLog [TAG; VStr "Successfully completed query. Results:"; payload];
        Thrown TypeError]) /\
  trace (step b2 (Fire e "error" payload)) =
    trace b2 ++
      [ConsoleLog [TAG; VStr "query failed. Error:"; payload]; Call k [payload]] /\
  (forall result s,
     get payload "result" = Some result ->
     toString result = Some s ->
     calls k (trace (step w2 (Fire e "complete" payload))) =
       calls k (trace w) ++ [[VNull; VStr s]]) /\
  ((forall result, get payload "result" = Some result -> toString result = None) ->
   calls k (trace (step w2 (Fire e "complete" payload))) = calls k (trace w)) /\
  (truthy payload = true ->
   calls k (trace (step w2 (Fire e "error" payload))) =
     calls k (trace w) ++ [[payload]]) /\
  (truthy payload = false ->
   calls k (trace (step w2 (Fire e "error" payload))) = calls k (trace w)).
Proof.
  intros Hc Hq Hk He e answer b2 w2.
  destruct (query_session w c enrollID requestBody (Caller k) _ m He) as [E _].
  fold answer in E. fold b2 in E.
  assert (L : nth e (emitters b2) [] = query_listeners (Caller k)).
  { rewrite E. cbn [emitters]. apply nth_last. }
  destruct (fire_query_caller b2 e k payload L) as [A B].
  destruct (op_session_calls w this c op getMemberError m k Hc He) as [Hcalls Hls].
  fold answer in Hcalls, Hls. fold w2 in Hcalls, Hls. fold e in Hls.
  split; [|split; [|split; [|split; [|split; [|split]]]]].
  - intros result Hr. now rewrite (A result Hr).
  - intros Hnone. rewrite (fire_listeners b2 _ _ _ payload L).
    rewrite (proj1 (emit_query (Caller k) payload b2)).
    unfold turn, apply_listener, bind, console_log, act. rewrite Hnone.
    cbn [eval throw trace members emitters]. unfold throw.
    cbn [trace members emitters]. now rewrite <- app_assoc.
  - now rewrite B.
  - intros result s Hr Hs. rewrite <- Hcalls.
    exact (op_fire_complete w2 e k op payload Hls Hk result s Hq Hr Hs).
  - intros Hnone. rewrite <- Hcalls.
    destruct (op_fire_unprintable w2 e op "complete" payload Hls) as [lines F].
    { rewrite Hq. auto. }
    rewrite F. cbn [trace]. apply calls_lines.
  - intros Ht. rewrite <- Hcalls.
    exact (op_fire_error w2 e k op payload Hls Hk Ht).
  - intros Hf. rewrite <- Hcalls.
    destruct (op_fire_falsy w2 e op payload Hls Hf) as [lines F].
    rewrite F. cbn [trace]. apply calls_lines.
Qed.

Lemma query_complete_unwraps_witness :
  calls 0 (trace (step (step (step empty
      (Op (Instance (Chain 0) (VStr "cp") (async_queue queue_worker 1))
          (GetCompany (VStr "alice") (VStr "Acme") (Caller 0))))
      (Answer 0 VNull (Member 7)))
      (Fire 0 "complete" (VObject [("result", VBuffer [x41; x63; x6d; x65])]))))
  = [[VNull; VStr "Acme"]] /\
  calls 0 (trace (step (step (step empty
      (Op (Instance (Chain 0) (VStr "cp") (async_queue queue_worker 1))
          (GetCompany (VStr "alice") (VStr "Acme") (Caller 0))))
      (Answer 0 VNull (Member 7)))
      (Fire 0 "complete" (VObject [("result", VNull)]))))
  = [].
Proof.
  pose proof (query_complete_unwraps empty
           (Instance (Chain 0) (VStr "cp") (async_queue queue_worker 1)) 0
           (GetCompany (VStr "alice") (VStr "Acme") (Caller 0)) 0
           (VStr "alice") VNull VNull 7
           (VObject [("result", VBuffer [x41; x63; x6d; x65])])
           eq_refl eq_refl eq_refl eq_refl) as (_ & _ & _ & A & _).
  pose proof (query_complete_unwraps empty
           (Instance (Chain 0) (VStr "cp") (async_queue queue_worker 1)) 0
           (GetCompany (VStr "alice") (VStr "Acme") (Caller 0)) 0
           (VStr "alice") VNull VNull 7
           (VObject [("result", VNull)])
           eq_refl eq_refl eq_refl eq_refl) as (_ & _ & _ & _ & B & _).
  split.
  - exact (A (VBuffer [x41; x63; x6d; x65]) "Acme" eq_refl eq_refl).
  - apply B. intros result H. inversion H. reflexivity.
Defined.

(** ** The order of the callbacks *)

Lemma filter_lines lines e :
  filter is_call (map ConsoleLog lines ++ [Thrown e]) = [].
Proof. induction lines as [|line lines IH]; [reflexivity | exact IH]. Qed.

Lemma idle_turn w : turn (ret tt ;; ret tt ;; ret tt ;; ret tt) w = w /\
                    turn (ret tt ;; ret tt ;; ret tt) w = w.
Proof. destruct w. split; reflexivity. Qed.

(** One event on the emitter of an operation: the turn adds to the trace
    and calls the caller with what [handed] says, or calls nobody. *)
Lemma op_fire_calls w e k op event payload :
  nth e (emitters w) [] = op_listeners op ->
  op_callback op = Caller k ->
  exists t,
    step w (Fire e event payload) =
      World (trace w ++ t) (members w) (emitters w) /\
    filter is_call t =
      match handed op event payload with
      | Some args => [Call k args]
      | None => []
      end.
Proof.
  intros Hls Hk. unfold handed.
  destruct (String.eqb_spec "error" event) as [<- | Nerr].
  - (* error *)
    destruct (truthy payload) eqn:Ht.
    + rewrite (fire_listeners w _ _ _ payload Hls). unfold op_listeners.
      destruct (is_query op);
        [rewrite (proj2 (emit_query (op_wrapper op) payload w))
        |rewrite (proj2 (proj2 (emit_invoke (op_wrapper op) payload w)))];
        unfold apply_listener; rewrite banner_turn;
        match goal with |- context [turn _ ?w0] =>
          destruct (wrapper_error op k payload w0 Hk Ht) as [line E];
          rewrite (turn_ret _ w0 _ E)
        end;
        cbn [trace members emitters]; rewrite <- app_assoc;
        eexists; (split; [reflexivity|]); reflexivity.
    + destruct (op_fire_falsy w e op payload Hls Ht) as [lines E].
      rewrite E. eexists. split; [reflexivity|]. apply filter_lines.
  - destruct (is_query op) eqn:Hq.
    + (* a query *)
      destruct (String.eqb_spec "complete" event) as [<- | Ncom].
      * destruct (get payload "result") as [result|] eqn:G;
          [destruct (toString result) as [s|] eqn:Ts|].
        -- rewrite (fire_listeners w _ _ _ payload Hls). unfold op_listeners.
           rewrite Hq, (proj1 (emit_query (op_wrapper op) payload w)).
           unfold apply_listener. rewrite banner_turn.
           match goal with |- context [turn _ ?w0] =>
             destruct (wrapper_query_success op k result s w0 Hq Hk Ts)
               as [line E];
             rewrite (turn_ret _ w0 _
                        (eq_trans (f_equal (fun o => bind (eval o) _ w0) G) E))
           end.
           cbn [trace members emitters]. rewrite <- app_assoc.
           eexists. split; reflexivity.
        -- destruct (op_fire_unprintable w e op "complete" payload Hls)
             as [lines E].
           { rewrite Hq. split; [reflexivity|]. intros r Hr.
             rewrite G in Hr. now injection Hr as <-. }
           rewrite E. eexists. split; [reflexivity|]. apply filter_lines.
        -- destruct (op_fire_unprintable w e op "complete" payload Hls)
             as [lines E].
           { rewrite Hq. split; [reflexivity|]. intros r Hr.
             rewrite G in Hr. discriminate Hr. }
           rewrite E. eexists. split; [reflexivity|]. apply filter_lines.
      * rewrite (fire_listeners w _ _ _ payload Hls). unfold op_listeners.
        rewrite Hq. unfold query_listeners. cbn [emit].
        apply String.eqb_neq in Nerr, Ncom. rewrite Nerr, Ncom.
        rewrite (proj2 (idle_turn w)). exists []. rewrite app_nil_r.
        destruct w. split; reflexivity.
    + (* an invoke *)
      destruct (String.eqb_spec "completed" event) as [<- | Ncom];
        [|destruct (String.eqb_spec "submitted" event) as [<- | Nsub]].
      * cbn [orb]. destruct (toString payload) as [s|] eqn:Ts.
        -- rewrite (fire_listeners w _ _ _ payload Hls). unfold op_listeners.
           rewrite Hq, (proj1 (emit_invoke (op_wrapper op) payload w)).
           unfold apply_listener. rewrite banner_turn.
           match goal with |- context [turn _ ?w0] =>
             destruct (wrapper_invoke_success op k payload s w0 Hq Hk Ts)
               as [line E];
             rewrite (turn_ret _ w0 _ E)
           end.
           cbn [trace members emitters]. rewrite <- app_assoc.
           eexists. split; reflexivity.
        -- destruct (op_fire_unprintable w e op "completed" payload Hls)
             as [lines E].
           { rewrite Hq. auto. }
           rewrite E. eexists. split; [reflexivity|]. apply filter_lines.
      * cbn [orb]. destruct (toString payload) as [s|] eqn:Ts.
        -- rewrite (fire_listeners w _ _ _ payload Hls). unfold op_listeners.
           rewrite Hq, (proj1 (proj2 (emit_invoke (op_wrapper op) payload w))).
           unfold apply_listener. rewrite banner_turn.
           match goal with |- context [turn _ ?w0] =>
             destruct (wrapper_invoke_success op k payload s w0 Hq Hk Ts)
               as [line E];
             rewrite (turn_ret _ w0 _ E)
           end.
           cbn [trace members emitters]. rewrite <- app_assoc.
           eexists. split; reflexivity.
        -- destruct (op_fire_unprintable w e op "submitted" payload Hls)
             as [lines E].
           { rewrite Hq. auto. }
           rewrite E. eexists. split; [reflexivity|]. apply filter_lines.
      * cbn [orb]. rewrite (fire_listeners w _ _ _ payload Hls). unfold op_listeners.
        rewrite Hq. unfold invoke_listeners. cbn [emit].
        apply String.eqb_neq in Nerr, Ncom, Nsub. rewrite Nerr, Ncom, Nsub.
        rewrite (proj1 (idle_turn w)). exists []. rewrite app_nil_r.
        destruct w. split; reflexivity.
Qed.

Lemma nth_two {A} (l : list A) (a b d : A) :
  nth (length l) (l ++ [a; b]) d = a /\ nth (S (length l)) (l ++ [a; b]) d = b.
Proof.
  split; rewrite app_nth2 by lia.
  - now rewrite Nat.sub_diag.
  - replace (S (length l) - length l) with 1 by lia. reflexivity.
Qed.

(** A second operation called while the first is in flight: both are
    submitted, nobody has been called, and each emitter carries the
    listeners of its own operation. *)
Lemma two_in_flight w this c op1 op2 gm1 gm2 m1 m2 :
  chain this = Chain c ->
  truthy gm1 = false ->
  truthy gm2 = false ->
  exists t ms,
    run [Op this op1; Answer (length (members w)) gm1 (Member m1);
         Op this op2; Answer (S (length (members w))) gm2 (Member m2)] w =
    World (trace w ++ t) (members w ++ ms)
      (emitters w ++ [op_listeners op1; op_listeners op2]) /\
    filter is_call t = [] /\
    length (filter is_submission t) = 2.
Proof.
  intros Hc H1 H2. unfold run. cbn [fold_left].
  destruct (op_session w this c op1 gm1 m1 Hc H1)
    as (b1 & h1 & body1 & r1 & E1).
  rewrite E1.
  match goal with |- context [step (step ?w2 (Op this op2)) _] =>
    destruct (op_session w2 this c op2 gm2 m2 Hc H2)
      as (b2 & h2 & body2 & r2 & E2);
    replace (S (length (members w))) with (length (members w2))
      by (cbn [members]; rewrite length_app; cbn; lia)
  end.
  rewrite E2. cbn [trace members emitters]. rewrite <- !app_assoc. cbn [app].
  do 2 eexists. split; [reflexivity|].
  destruct (is_query op1), (is_query op2); split; reflexivity.
Qed.

Lemma run_operations_order this c ops :
  chain this = Chain c ->
  forall w,
    filter is_getMember (trace (run (map (Op this) ops) w)) =
    filter is_getMember (trace w) ++ map (fun op => GetMember c (op_enrollID op)) ops.
Proof.
  intros Hc. induction ops as [|op ops IH]; intros w.
  - simpl. now rewrite app_nil_r.
  - cbn [map run fold_left]. fold (run (map (Op this) ops) (step w (Op this op))).
    rewrite IH.
    destruct (op_turn w this c op Hc) as (banner & helper & requestBody & E).
    rewrite E. cbn [trace]. rewrite filter_app. cbn. now rewrite <- app_assoc.
Qed.

(** C1, as the code has it.  The constructor gives the instance a queue of
    concurrency 1 whose worker runs the task it is given, handing it the
    callback; no operation puts anything on that queue.  Each operation
    calls [chain.getMember] in the very turn it is called, whatever is in
    flight already: operations called in a row reach the chain in the order
    of the calls and none has called back, and an operation called while
    another is in flight is submitted before that one has called back.
    Nothing orders the callbacks: each is made in the turn in which the
    emitter of its own operation fires, so when the emitter of the second
    operation fires first, the second caller is called first. *)
Theorem operations_bypass_the_queue chain0 id this c w ops t callback
    op1 op2 k1 k2 gm1 gm2 m1 m2 event1 payload1 event2 payload2 :
  CPChaincode chain0 id = Ret this ->
  chain0 = Chain c ->
  queue this = async_queue queue_worker 1 /\
  trace (step w (Work this (Task t) callback)) = trace w ++ [RunTask t callback] /\
  (forall op,
     exists banner helper,
       trace (step w (Op this op)) =
       trace w ++ [ConsoleLog banner; ConsoleLog helper;
                   GetMember c (op_enrollID op)]) /\
  filter is_getMember (trace (run (map (Op this) ops) w)) =
    filter is_getMember (trace w) ++
    map (fun op => GetMember c (op_enrollID op)) ops /\
  called_back (trace (run (map (Op this) ops) w)) = called_back (trace w) /\
  (op_callback op1 = Caller k1 ->
   op_callback op2 = Caller k2 ->
   truthy gm1 = false ->
   truthy gm2 = false ->
   let n := length (members w) in
   let e := length (emitters w) in
   let w4 := run [Op this op1; Answer n gm1 (Member m1);
                  Op this op2; Answer (S n) gm2 (Member m2)] w in
   filter is_call (trace w4) = filter is_call (trace w) /\
   length (filter is_submission (trace w4)) =
     length (filter is_submission (trace w)) + 2 /\
   filter is_call (trace (run [Fire (S e) event2 payload2;
                               Fire e event1 payload1] w4)) =
     filter is_call (trace w) ++
     call_made k2 op2 event2 payload2 ++ call_made k1 op1 event1 payload1).
Proof.
  intros Hnew ->.
  destruct (CPChaincode_fields _ _ _ Hnew) as (Hc & _ & Hq & _).
  split; [exact Hq|]. split; [|split; [|split; [|split]]].
  - unfold step. rewrite Hq. reflexivity.
  - intros op.
    destruct (op_turn w this c op Hc) as (banner & helper & requestBody & E).
    exists banner, helper. now rewrite E.
  - exact (run_operations_order this c ops Hc w).
  - exact (proj2 (run_operations this c ops Hc w)).
  - intros Hk1 Hk2 H1 H2 n e w4.
    destruct (two_in_flight w this c op1 op2 gm1 gm2 m1 m2 Hc H1 H2)
      as (t4 & ms & E4 & Hcall & Hsub).
    fold n in E4. fold w4 in E4. rewrite E4. cbn [trace].
    split; [now rewrite filter_app, Hcall, app_nil_r|].
    split; [rewrite filter_app, length_app, Hsub; reflexivity|].
    unfold run. cbn [fold_left].
    destruct (nth_two (emitters w) (op_listeners op1) (op_listeners op2) [])
      as [L1 L2]. fold e in L1, L2.
    match goal with |- context [step ?w0 (Fire (S e) event2 payload2)] =>
      destruct (op_fire_calls w0 (S e) k2 op2 event2 payload2 L2 Hk2)
        as (t5 & E5 & C5)
    end.
    rewrite E5. cbn [trace members emitters].
    match goal with |- context [step ?w0 (Fire e event1 payload1)] =>
      destruct (op_fire_calls w0 e k1 op1 event1 payload1 L1 Hk1)
        as (t6 & E6 & C6)
    end.
    rewrite E6. cbn [trace]. rewrite !filter_app, Hcall, C5, C6.
    unfold call_made. now rewrite app_nil_r, app_assoc.
Qed.

Lemma operations_bypass_the_queue_witness :
  CPChaincode (Chain 0) (VStr "cp") =
    Ret (Instance (Chain 0) (VStr "cp") (async_queue queue_worker 1)) /\
  filter is_call (trace (run
      [Fire 1 "complete" (VObject [("result", VStr "[]")]);
       Fire 0 "completed" (VStr "tx1")]
      (run [Op (Instance (Chain 0) (VStr "cp") (async_queue queue_worker 1))
               (CreateCompany (VStr "alice") (Caller 1));
            Answer 0 VNull (Member 7);
            Op (Instance (Chain 0) (VStr "cp") (async_queue queue_worker 1))
               (GetPapers (VStr "bob") (Caller 2));
            Answer 1 VNull (Member 8)] empty))) =
  [Call 2 [VNull; VStr "[]"]; Call 1 [VNull; VStr "tx1"]].
Proof.
  split; [reflexivity|].
  exact (proj2 (proj2 (proj2 (proj2 (proj2 (proj2 (proj2
           (operations_bypass_the_queue (Chain 0) (VStr "cp")
              (Instance (Chain 0) (VStr "cp") (async_queue queue_worker 1)) 0 empty
              [] 0 0
              (CreateCompany (VStr "alice") (Caller 1))
              (GetPapers (VStr "bob") (Caller 2)) 1 2 VNull VNull 7 8
              "completed" (VStr "tx1")
              "complete" (VObject [("result", VStr "[]")])
              eq_refl eq_refl)))))
           eq_refl eq_refl eq_refl eq_refl))).
Defined.
